(** * Feedback intake: validation, duplicate guard, throttling, persistence

    A shallow embedding of the [feedback] Django application
    (serializers.py, models.py, views.py, admin.py) and the properties
    of its submission pipeline.

    Conventions:
    - a Python [str] is a list of Unicode code points ([list N]);
    - timestamps are integers (microseconds since the epoch), one clock
      reading per request;
    - the database is the list of stored rows together with the next
      primary key; lookups compare values for equality and no column
      width is enforced;
    - a request is one that has passed the CSRF check wrapped around
      [dispatch]; logging is left out;
    - functions of third-party libraries whose behaviour rests on HTML or
      Unicode tables (str.lower, strip_tags, bleach.clean, EmailValidator)
      are the fields of the class [Libs]; the application code is
      parametric in them. *)

From Stdlib Require Import ZArith NArith List String Ascii Lia Bool DecimalString.
From stdpp Require Import base decidable option list gmap.
Import ListNotations.

Set Default Proof Using "Type".

Abbreviation pystr := (list N) (only parsing).

(** ** Python strings *)

Module Py.

(** A string literal of the source, as code points (ASCII only). *)
Definition py (x : string) : pystr :=
  map N_of_ascii (list_ascii_of_string x).

(** [str.isspace] on one code point; also the class [\s] of [re] on
    [str] patterns. *)
Definition isspace (c : N) : bool :=
  ((9 <=? c) && (c <=? 13) || (28 <=? c) && (c <=? 32)
   || (c =? 133) || (c =? 160) || (c =? 5760)
   || (8192 <=? c) && (c <=? 8202)
   || (c =? 8232) || (c =? 8233) || (c =? 8239) || (c =? 8287)
   || (c =? 12288))%N.

Fixpoint lstrip (x : pystr) : pystr :=
  match x with
  | c :: x' => if isspace c then lstrip x' else x
  | [] => []
  end.

Definition rstrip (x : pystr) : pystr := rev (lstrip (rev x)).

(** [x.strip()] *)
Definition strip (x : pystr) : pystr := rstrip (lstrip x).

Definition eqb (x y : pystr) : bool := bool_decide (x = y).

(** [x.startswith(p)] *)
Fixpoint startswith (p x : pystr) : bool :=
  match p, x with
  | [], _ => true
  | a :: p', b :: x' => (a =? b)%N && startswith p' x'
  | _ :: _, [] => false
  end.

(** [p in x] for strings *)
Fixpoint contains (p x : pystr) : bool :=
  startswith p x ||
  match x with
  | [] => false
  | _ :: x' => contains p x'
  end.

(** [x in l] for a list of strings *)
Definition mem (x : pystr) (l : list pystr) : bool := existsb (eqb x) l.

(** [c in x] for a single character *)
Definition has_char (c : N) (x : pystr) : bool := existsb (N.eqb c) x.

(** [x.split(sep)] for a one-character separator: never empty. *)
Fixpoint split (sep : N) (x : pystr) : list pystr :=
  match x with
  | [] => [[]]
  | c :: x' =>
      if (c =? sep)%N then [] :: split sep x'
      else match split sep x' with
           | w :: ws => (c :: w) :: ws
           | [] => [[c]]
           end
  end.

(** [''.join(x.split())]: every whitespace character removed. *)
Definition join_split (x : pystr) : pystr :=
  filter (fun c => isspace c = false) x.

(** [bool(x)] for a string *)
Definition truthy (x : pystr) : bool :=
  match x with [] => false | _ => true end.

(** [str(n)] for a non-negative integer *)
Definition str_of_N (n : N) : pystr :=
  py (NilZero.string_of_uint (N.to_uint n)).

End Py.
Export Py.

(** ** Regular expressions of serializers.py *)

Module Re.

(** One character of the class [[a-zA-Zа-яА-ЯёЁ\s\-\.]]. *)
Definition name_char (c : N) : bool :=
  ((97 <=? c) && (c <=? 122) || (65 <=? c) && (c <=? 90)
   || (1072 <=? c) && (c <=? 1103) || (1040 <=? c) && (c <=? 1071)
   || (c =? 1105) || (c =? 1025)
   || isspace c || (c =? 45) || (c =? 46))%N.

(** [re.match(r'^[a-zA-Zа-яА-ЯёЁ\s\-\.]+$', x)] is not None.  [$] also
    matches before a final line feed, and the line feed is in the class,
    so the match exists exactly when [x] is non-empty and every character
    is in the class. *)
Definition name_match (x : pystr) : bool :=
  truthy x && forallb name_char x.

(** Length of the run of [c] at the start of [x]. *)
Fixpoint run_of (c : N) (x : pystr) : nat :=
  match x with
  | d :: x' => if (d =? c)%N then S (run_of c x') else 0
  | [] => 0
  end.

(** [re.search(r'(.)\1{10,}', x)] is not None: some position holds a
    character other than the line feed ([.] without DOTALL) followed by
    at least ten copies of itself. *)
Fixpoint repeat_search (x : pystr) : bool :=
  match x with
  | [] => false
  | c :: x' =>
      (negb (c =? 10)%N && (10 <=? run_of c x')%nat) || repeat_search x'
  end.

End Re.

(** ** Third-party functions *)

Class Libs := {
  (** [str.lower] *)
  str_lower : pystr -> pystr;
  (** [django.utils.html.strip_tags] *)
  strip_tags : pystr -> pystr;
  (** [bleach.clean(text, tags=tags, strip=True)], other arguments default *)
  bleach_clean : list pystr -> pystr -> pystr;
  (** [django.core.validators.EmailValidator()(value)] does not raise *)
  EmailValidator : pystr -> bool;
}.

(** [bleach.ALLOWED_TAGS], the default of the [tags] argument. *)
Definition ALLOWED_TAGS : list pystr :=
  map py ["a"; "abbr"; "acronym"; "b"; "blockquote"; "code"; "em"; "i";
          "li"; "ol"; "strong"; "ul"]%string.

(** ** Results and error messages *)

Inductive msg :=
  (* serializers.py *)
  | EmailRequired | TempMailForbidden
  | ThemeEmpty | ThemeTooShort | ThemeTooLong | SpamWords
  | NameRequired | NameTooShort | NameTooLong | NameCharset
  | CompanyTooLong
  | MessageRequired | MessageTooShort | MessageTooLong | MessageRepeats
  | BadActor
  | DuplicateWithinHour
  (* rest_framework field errors *)
  | Required | NullValue | Blank | InvalidChoice | InvalidEmail
  | MaxLength (n : nat) | MinLength (n : nat)
  | NullCharacters | SurrogateCharacters.

#[global] Instance msg_eq_dec : EqDecision msg.
Proof. solve_decision. Defined.

Inductive result (A : Type) :=
  | Ok (a : A)
  | Raise (e : msg).
Arguments Ok {A} a.
Arguments Raise {A} e.

Definition is_raise {A} (r : result A) : bool :=
  match r with Raise _ => true | Ok _ => false end.

(** ** models.py: choices *)

Definition ACTOR_CHOICES : list pystr :=
  map py ["advertiser"; "author"; "question"]%string.

Definition STATUS_CHOICES : list pystr :=
  map py ["new"; "completed"; "rejected"]%string.

(** ** serializers.py: FeedbackCreateSerializer field validators *)

Section Validators.
Context {L : Libs}.

Definition suspicious_domains : list pystr :=
  map py ["tempmail.org"; "10minutemail.com"; "guerrillamail.com";
          "mailinator.com"; "temp-mail.org"]%string.

Definition spam_words : list pystr :=
  map py ["casino"; "viagra"; "free money"; "click here"; "win now"]%string.

(** [any(word in text.lower() for word in spam_words)] *)
Definition has_spam (text : pystr) : bool :=
  existsb (fun word => contains word (str_lower text)) spam_words.

(** [value.split('@')[1].lower() if '@' in value else ''] *)
Definition email_domain (value : pystr) : pystr :=
  if has_char 64 value
  then str_lower (nth 1 (split 64 value) [])
  else [].

Definition validate_email (value : pystr) : result pystr :=
  if negb (truthy value) then Raise EmailRequired
  else if mem (email_domain value) suspicious_domains
       then Raise TempMailForbidden
       else Ok (strip (str_lower value)).

Definition validate_theme (value : pystr) : result pystr :=
  if negb (truthy value) || negb (truthy (strip value))
  then Raise ThemeEmpty
  else
    let clean_value := strip (strip_tags value) in
    if (length clean_value <? 5)%nat then Raise ThemeTooShort
    else if (200 <? length clean_value)%nat then Raise ThemeTooLong
    else if has_spam clean_value then Raise SpamWords
    else Ok clean_value.

Definition validate_name_person (value : pystr) : result pystr :=
  if negb (truthy value) || negb (truthy (strip value))
  then Raise NameRequired
  else
    let clean_value := strip (strip_tags value) in
    if (length clean_value <? 2)%nat then Raise NameTooShort
    else if (100 <? length clean_value)%nat then Raise NameTooLong
    else if negb (Re.name_match clean_value) then Raise NameCharset
    else Ok clean_value.

(** [value] is [None] or a string. *)
Definition validate_name_company (value : option pystr)
  : result (option pystr) :=
  match value with
  | Some v =>
      if truthy v then
        let clean_value := strip (strip_tags v) in
        if (150 <? length clean_value)%nat then Raise CompanyTooLong
        else Ok (Some clean_value)
      else Ok value
  | None => Ok value
  end.

Definition message_tags : list pystr :=
  map py ["p"; "br"; "strong"; "em"; "u"]%string.

Definition validate_message (value : pystr) : result pystr :=
  if negb (truthy value) || negb (truthy (strip value))
  then Raise MessageRequired
  else
    let clean_value := strip (bleach_clean message_tags value) in
    if (length clean_value <? 10)%nat then Raise MessageTooShort
    else if (2000 <? length clean_value)%nat then Raise MessageTooLong
    else if has_spam clean_value then Raise SpamWords
    else if Re.repeat_search clean_value then Raise MessageRepeats
    else Ok clean_value.

Definition validate_actor (value : pystr) : result pystr :=
  if negb (mem value ACTOR_CHOICES) then Raise BadActor
  else Ok value.

End Validators.

(** ** rest_framework: serializer fields built from models.py *)

(** A value of the request payload under one key: absent, JSON null, or a
    string. *)
Inductive raw := Missing | Null | Str (v : pystr).

(** Result of [field.run_validation] followed by the serializer's
    [validate_<field>] method: [SkipField], a value, or the error list. *)
Inductive outcome (A : Type) :=
  | Skip
  | Value (a : A)
  | Fail (errs : list msg).
Arguments Skip {A}.
Arguments Value {A} a.
Arguments Fail {A} errs.

Definition failed {A} (o : outcome A) : bool :=
  match o with Fail _ => true | _ => false end.

(** [MaxLengthValidator(n)], [MinLengthValidator(n)] and the two
    [Prohibit...CharactersValidator]s that [CharField] installs. *)
Definition max_length (n : nat) (e : msg) (v : pystr) : list msg :=
  if (n <? length v)%nat then [e] else [].

Definition min_length (n : nat) (e : msg) (v : pystr) : list msg :=
  if (length v <? n)%nat then [e] else [].

Definition prohibit_null (v : pystr) : list msg :=
  if has_char 0 v then [NullCharacters] else [].

Definition prohibit_surrogate (v : pystr) : list msg :=
  if existsb (fun c => (55296 <=? c) && (c <=? 57343))%N v
  then [SurrogateCharacters] else [].

(** [CharField.run_validation]: blank test, empty values, trimming
    ([trim_whitespace=True]), then every validator, errors accumulated. *)
Definition CharField (required allow_null allow_blank : bool)
    (validators : pystr -> list msg) (data : raw) : outcome (option pystr) :=
  match data with
  | Str v =>
      if negb (truthy (strip v))
      then if allow_blank then Value (Some []) else Fail [Blank]
      else
        let value := strip v in
        match validators value with
        | [] => Value (Some value)
        | errs => Fail errs
        end
  | Missing => if required then Fail [Required] else Skip
  | Null => if allow_null then Value None else Fail [NullValue]
  end.

(** [ChoiceField.run_validation] for a required field. *)
Definition ChoiceField (choices : list pystr) (data : raw) : outcome pystr :=
  match data with
  | Str v => if mem v choices then Value v else Fail [InvalidChoice]
  | Missing => Fail [Required]
  | Null => Fail [NullValue]
  end.

(** The serializer calls [validate_<field>] on the field's value; an
    exception becomes the field's error list. *)
Definition then_validate {A B} (o : outcome A) (validate_method : A -> result B)
  : outcome B :=
  match o with
  | Value a =>
      match validate_method a with
      | Ok b => Value b
      | Raise e => Fail [e]
      end
  | Skip => Skip
  | Fail errs => Fail errs
  end.

(** [None] and [''] are both falsy: a validator that starts with
    [if not value] treats them alike. *)
Definition or_empty (v : option pystr) : pystr :=
  match v with Some x => x | None => [] end.

Inductive key :=
  | k_actor | k_theme | k_email | k_name_company | k_name_person | k_message
  | non_field_errors.

#[global] Instance key_eq_dec : EqDecision key.
Proof. solve_decision. Defined.

(** [serializer.errors] *)
Abbreviation report := (list (key * list msg)) (only parsing).

Record payload := {
  p_actor : raw;
  p_theme : raw;
  p_email : raw;
  p_name_company : raw;
  p_name_person : raw;
  p_message : raw;
}.

(** [validated_data]; [name_company] may be absent from it. *)
Record attrs := {
  a_actor : pystr;
  a_theme : pystr;
  a_email : pystr;
  a_name_company : option (option pystr);
  a_name_person : pystr;
  a_message : pystr;
}.

Section Fields.
Context {L : Libs}.

Definition email_validators (v : pystr) : list msg :=
  (if EmailValidator v then [] else [InvalidEmail])
  ++ max_length 254 (MaxLength 254) v
  ++ prohibit_null v ++ prohibit_surrogate v
  ++ (if EmailValidator v then [] else [InvalidEmail]).

Definition field_actor (d : raw) : outcome pystr :=
  then_validate (ChoiceField ACTOR_CHOICES d) validate_actor.

Definition field_theme (d : raw) : outcome pystr :=
  then_validate
    (CharField true false false
       (fun v => max_length 200 (MaxLength 200) v
                 ++ min_length 5 (MinLength 5) v
                 ++ prohibit_null v ++ prohibit_surrogate v) d)
    (fun v => validate_theme (or_empty v)).

Definition field_email (d : raw) : outcome pystr :=
  then_validate (CharField true false false email_validators d)
    (fun v => validate_email (or_empty v)).

Definition field_name_company (d : raw) : outcome (option pystr) :=
  then_validate
    (CharField false true true
       (fun v => max_length 150 (MaxLength 150) v
                 ++ prohibit_null v ++ prohibit_surrogate v) d)
    validate_name_company.

Definition field_name_person (d : raw) : outcome pystr :=
  then_validate
    (CharField true false false
       (fun v => max_length 100 (MaxLength 100) v
                 ++ min_length 2 (MinLength 2) v
                 ++ prohibit_null v ++ prohibit_surrogate v) d)
    (fun v => validate_name_person (or_empty v)).

Definition field_message (d : raw) : outcome pystr :=
  then_validate
    (CharField true false false
       (fun v => min_length 10 MessageTooShort v
                 ++ max_length 2000 MessageTooLong v
                 ++ prohibit_null v ++ prohibit_surrogate v) d)
    (fun v => validate_message (or_empty v)).

(** [errors[field.field_name] = exc.detail] *)
Definition collect {A} (k : key) (o : outcome A) : report :=
  match o with
  | Fail errs => [(k, errs)]
  | _ => []
  end.

(** [Serializer.to_internal_value]: every field of [Meta.fields] is run, in
    order; the errors of all of them are gathered before raising. *)
Definition to_internal_value (d : payload) : report + attrs :=
  let o_actor := field_actor (p_actor d) in
  let o_theme := field_theme (p_theme d) in
  let o_email := field_email (p_email d) in
  let o_company := field_name_company (p_name_company d) in
  let o_person := field_name_person (p_name_person d) in
  let o_message := field_message (p_message d) in
  match collect k_actor o_actor ++ collect k_theme o_theme
        ++ collect k_email o_email ++ collect k_name_company o_company
        ++ collect k_name_person o_person ++ collect k_message o_message with
  | [] =>
      match o_actor, o_theme, o_email, o_person, o_message with
      | Value a, Value t, Value e, Value p, Value m =>
          inr {| a_actor := a; a_theme := t; a_email := e;
                 a_name_company :=
                   match o_company with Value c => Some c | _ => None end;
                 a_name_person := p; a_message := m |}
      | _, _, _, _, _ => inl []  (* a required field is never skipped *)
      end
  | errors => inl errors
  end.

End Fields.

(** ** models.py: Feedback *)

Record Feedback := {
  id : N;
  created_at : Z;
  actor : pystr;
  theme : pystr;
  email : pystr;
  name_company : option pystr;
  name_person : pystr;
  message : pystr;
  status : pystr;
  ip_address : option pystr;
  user_agent : option pystr;
  updated_at : Z;
}.

Definition HOUR : Z := 3600000000.

Section Model.
Context {L : Libs}.

(** [if self.f: self.f = clean(self.f)] *)
Definition if_set (clean : pystr -> pystr) (v : pystr) : pystr :=
  if truthy v then clean v else v.

(** The body of [Feedback.save] before [super().save()]. *)
Definition save_fields (r : Feedback) : Feedback :=
  {| id := id r;
     created_at := created_at r;
     actor := actor r;
     theme := if_set (bleach_clean ALLOWED_TAGS) (theme r);
     email := email r;
     name_company := if_set (bleach_clean ALLOWED_TAGS) <$> name_company r;
     name_person := if_set (bleach_clean ALLOWED_TAGS) (name_person r);
     message := if_set (bleach_clean message_tags) (message r);
     status := status r;
     ip_address := ip_address r;
     user_agent := user_agent r;
     updated_at := updated_at r |}.

(** [Feedback.save] of a new object: sanitize, then INSERT with the next
    primary key; [auto_now_add] and [auto_now] stamp both dates. *)
Definition save_new (pk : N) (now : Z) (r : Feedback) : Feedback :=
  let r := save_fields r in
  {| id := pk; created_at := now;
     actor := actor r; theme := theme r; email := email r;
     name_company := name_company r; name_person := name_person r;
     message := message r; status := status r;
     ip_address := ip_address r; user_agent := user_agent r;
     updated_at := now |}.

(** [Feedback.save] of a stored object: sanitize, then UPDATE;
    [auto_now] stamps [updated_at]. *)
Definition save_existing (now : Z) (r : Feedback) : Feedback :=
  let r := save_fields r in
  {| id := id r; created_at := created_at r;
     actor := actor r; theme := theme r; email := email r;
     name_company := name_company r; name_person := name_person r;
     message := message r; status := status r;
     ip_address := ip_address r; user_agent := user_agent r;
     updated_at := now |}.

(** [Feedback.objects.filter(email=.., theme=.., created_at__gte=now - 1h)
    .exists()] *)
Definition recent_feedback (db : list Feedback) (now : Z)
    (email' theme' : pystr) : bool :=
  existsb (fun r => eqb (email r) email' && eqb (theme r) theme'
                    && (now - HOUR <=? created_at r)%Z) db.

(** [FeedbackCreateSerializer.validate] *)
Definition validate (db : list Feedback) (now : Z) (a : attrs) : result attrs :=
  if recent_feedback db now (a_email a) (a_theme a)
  then Raise DuplicateWithinHour
  else Ok a.

(** [serializer.is_valid()]: field errors, or else the error of
    [validate] under [non_field_errors]. *)
Definition run_validation (db : list Feedback) (now : Z) (d : payload)
  : report + attrs :=
  match to_internal_value d with
  | inl errors => inl errors
  | inr a =>
      match validate db now a with
      | Ok a' => inr a'
      | Raise e => inl [(non_field_errors, [e])]
      end
  end.

End Model.

(** ** views.py *)

(** The parts of [django.conf.settings] the views read. *)
Record Settings := {
  BLOCKED_IPS : list pystr;     (* getattr(settings, 'BLOCKED_IPS', []) *)
  NUM_PROXIES : option nat;     (* REST_FRAMEWORK['NUM_PROXIES'], default None *)
}.

(** [request.META] and [request.user]. *)
Record meta := {
  HTTP_X_FORWARDED_FOR : option pystr;
  REMOTE_ADDR : pystr;
  HTTP_USER_AGENT : option pystr;
  user_pk : option N;            (* primary key of an authenticated user *)
  is_staff : bool;
}.

(** *** Throttling (rest_framework.throttling) *)

(** [while history and history[-1] <= limit: history.pop()] *)
Fixpoint pop_expired (limit : Z) (history : list Z) : list Z :=
  match history with
  | [] => []
  | t :: history' =>
      match pop_expired limit history' with
      | [] => if (t <=? limit)%Z then [] else [t]
      | rest => t :: rest
      end
  end.

(** [SimpleRateThrottle.allow_request] once the cache key is known; the
    cache maps a key to the list of admitted timestamps, newest first.
    [throttle_failure] writes nothing; [throttle_success] stores the
    trimmed history with [now] in front. *)
Definition allow (num_requests : nat) (duration : Z) (k : pystr) (now : Z)
    (cache : gmap pystr (list Z)) : bool * gmap pystr (list Z) :=
  let history := pop_expired (now - duration) (default [] (cache !! k)) in
  if (num_requests <=? length history)%nat
  then (false, cache)
  else (true, <[k := now :: history]> cache).

Section Throttle.
Context (cfg : Settings).

(** [BaseThrottle.get_ident] *)
Definition get_ident (m : meta) : pystr :=
  match NUM_PROXIES cfg with
  | Some num_proxies =>
      match num_proxies, HTTP_X_FORWARDED_FOR m with
      | O, _ | _, None => REMOTE_ADDR m
      | _, Some xff =>
          let addrs := split 44 xff in
          strip (nth (length addrs - min num_proxies (length addrs)) addrs [])
      end
  | None =>
      match HTTP_X_FORWARDED_FOR m with
      | Some xff => if truthy xff then join_split xff else REMOTE_ADDR m
      | None => REMOTE_ADDR m
      end
  end.

(** [cache_format % {'scope': scope, 'ident': ident}] with
    [cache_format = 'throttle_%(scope)s_%(ident)s'] *)
Definition cache_key (scope ident : pystr) : pystr :=
  py "throttle_" ++ scope ++ py "_" ++ ident.

(** [AnonRateThrottle.get_cache_key] with [scope = 'feedback']:
    authenticated requests are not throttled by this class. *)
Definition anon_key (m : meta) : option pystr :=
  match user_pk m with
  | Some _ => None
  | None => Some (cache_key (py "feedback") (get_ident m))
  end.

(** [UserRateThrottle.get_cache_key] with [scope = 'feedback_auth'] *)
Definition user_key (m : meta) : option pystr :=
  match user_pk m with
  | Some pk => Some (cache_key (py "feedback_auth") (str_of_N pk))
  | None => Some (cache_key (py "feedback_auth") (get_ident m))
  end.

(** [throttle_classes = [FeedbackRateThrottle,
    AuthenticatedFeedbackRateThrottle]] with rates ['5/hour'] and
    ['10/hour']: the limit and the key of each for this request. *)
Definition throttle_classes (m : meta) : list (nat * option pystr) :=
  [(5%nat, anon_key m); (10%nat, user_key m)].

(** [throttle.allow_request(request, view)]: a throttle without a key
    lets the request through. *)
Definition allow_request (t : nat * option pystr) (now : Z)
    (cache : gmap pystr (list Z)) : bool * gmap pystr (list Z) :=
  match t.2 with
  | Some k => allow t.1 HOUR k now cache
  | None => (true, cache)
  end.

(** [APIView.check_throttles]: every throttle is asked, none is skipped
    after a failure; the request is admitted when all allow it. *)
Fixpoint check_all (ts : list (nat * option pystr)) (now : Z)
    (cache : gmap pystr (list Z)) : bool * gmap pystr (list Z) :=
  match ts with
  | [] => (true, cache)
  | t :: ts' =>
      let '(ok, cache1) := allow_request t now cache in
      let '(oks, cache2) := check_all ts' now cache1 in
      (ok && oks, cache2)
  end.

Definition check_throttles (m : meta) (now : Z) (cache : gmap pystr (list Z))
  : bool * gmap pystr (list Z) :=
  check_all (throttle_classes m) now cache.

End Throttle.

(** *** Responses and state *)

Inductive json := JNull | JStr (v : pystr) | JNum (n : Z) | JBool (b : bool).

Inductive body :=
  | Forbidden                   (* {'error': 'Доступ запрещен'} *)
  | Errors (errors : list (key * list msg))   (* {'errors': serializer.errors} *)
  | Success (pk : N)            (* {'message': .., 'id': pk, 'status': 'success'} *)
  | TooManyRequests             (* {'error': 'Слишком много запросов. ...'} *)
  | BadStatus                   (* {'error': 'Неверный статус'} *)
  | Row (r : Feedback)          (* serializer.data *)
  | NotFound
  | PermissionDenied.

Record Response := { status_code : nat; data : body }.

Record State := {
  cache : gmap pystr (list Z);
  db : list Feedback;
  next_pk : N;
}.

Definition with_cache (c : gmap pystr (list Z)) (st : State) : State :=
  {| cache := c; db := db st; next_pk := next_pk st |}.

Section Views.
Context {L : Libs} (cfg : Settings).

(** [FeedbackCreateView.get_client_ip] *)
Definition get_client_ip (m : meta) : pystr :=
  match HTTP_X_FORWARDED_FOR m with
  | Some x_forwarded_for =>
      if truthy x_forwarded_for
      then strip (nth 0 (split 44 x_forwarded_for) [])
      else REMOTE_ADDR m
  | None => REMOTE_ADDR m
  end.

(** The object [serializer.save(ip_address=.., user_agent=..)] builds
    before calling its [save].  The IP address column holds NULL for the
    empty string; an address with a colon is stored by the database in
    its normalised form, which the model does not compute (it keeps the
    text). *)
Definition new_feedback (a : attrs) (client_ip user_agent' : pystr) : Feedback :=
  {| id := 0; created_at := 0;
     actor := a_actor a; theme := a_theme a; email := a_email a;
     name_company := mjoin (a_name_company a);
     name_person := a_name_person a; message := a_message a;
     status := py "new";
     ip_address := if truthy client_ip then Some client_ip else None;
     user_agent := Some user_agent';
     updated_at := 0 |}.

(** [FeedbackCreateView.create] *)
Definition create (m : meta) (d : payload) (now : Z) (st : State)
  : Response * State :=
  let client_ip := get_client_ip m in
  let user_agent' := default [] (HTTP_USER_AGENT m) in
  if mem client_ip (BLOCKED_IPS cfg)
  then ({| status_code := 403; data := Forbidden |}, st)
  else
    match run_validation (db st) now d with
    | inl errors => ({| status_code := 400; data := Errors errors |}, st)
    | inr a =>
        let feedback :=
          save_new (next_pk st) now (new_feedback a client_ip user_agent') in
        ({| status_code := 201; data := Success (id feedback) |},
         {| cache := cache st; db := db st ++ [feedback];
            next_pk := N.succ (next_pk st) |})
    end.

(** [FeedbackCreateView.handle_exception] for the [Throttled] exception
    (status code 429). *)
Definition handle_exception_throttled : Response :=
  {| status_code := 429; data := TooManyRequests |}.

(** A POST to [create/] once past the CSRF check: [APIView.initial] runs
    [check_throttles] before the handler; a refusal raises [Throttled],
    which [handle_exception] answers. *)
Definition dispatch (m : meta) (d : payload) (now : Z) (st : State)
  : Response * State :=
  let '(admitted, cache') := check_throttles cfg m now (cache st) in
  if admitted
  then create m d now (with_cache cache' st)
  else (handle_exception_throttled, with_cache cache' st).

(** *** FeedbackDetailView *)

(** [FeedbackListSerializer.Meta.fields] *)
Definition list_fields : list pystr :=
  map py ["id"; "created_at"; "actor"; "actor_display"; "theme"; "email";
          "name_company"; "name_person"; "message"; "status_display"]%string.

(** [read_only_fields = fields]; the two declared fields are
    [read_only=True] as well. *)
Definition read_only_fields : list pystr := list_fields.

(** [serializer._writable_fields] *)
Definition writable_fields : list pystr :=
  List.filter (fun f => negb (mem f read_only_fields)) list_fields.

(** [validated_data] of the partial update: the writable fields present
    in the data. *)
Definition validated_update (update_data : gmap pystr json) : gmap pystr json :=
  filter (fun kv => mem kv.1 writable_fields = true) update_data.

(** [setattr(instance, attr, value)] for a text attribute of the model. *)
Definition setattr (attr : pystr) (value : json) (r : Feedback) : Feedback :=
  match value with
  | JStr v =>
      {| id := id r; created_at := created_at r;
         actor := if eqb attr (py "actor") then v else actor r;
         theme := if eqb attr (py "theme") then v else theme r;
         email := if eqb attr (py "email") then v else email r;
         name_company :=
           if eqb attr (py "name_company") then Some v else name_company r;
         name_person := if eqb attr (py "name_person") then v else name_person r;
         message := if eqb attr (py "message") then v else message r;
         status := if eqb attr (py "status") then v else status r;
         ip_address := ip_address r; user_agent := user_agent r;
         updated_at := updated_at r |}
  | _ => r
  end.

(** [ModelSerializer.update]: set every validated attribute, then
    [instance.save()]. *)
Definition serializer_update (now : Z) (validated_data : gmap pystr json)
    (instance : Feedback) : Feedback :=
  save_existing now (map_fold setattr instance validated_data).

(** [queryset.get(pk=pk)] *)
Definition get_object (pk : N) (rows : list Feedback) : option Feedback :=
  List.find (fun r => (id r =? pk)%N) rows.

(** The UPDATE of the row with the instance's primary key (primary keys
    are unique: the first match is the row). *)
Fixpoint store (r' : Feedback) (rows : list Feedback) : list Feedback :=
  match rows with
  | [] => []
  | r :: rows' =>
      if (id r =? id r')%N then r' :: rows' else r :: store r' rows'
  end.

(** [FeedbackDetailView.update], preceded by the [IsAdminUser] permission
    check of the view. *)
Definition update (m : meta) (pk : N) (request_data : gmap pystr json)
    (now : Z) (st : State) : Response * State :=
  if negb (is_staff m)
  then ({| status_code := 403; data := PermissionDenied |}, st)
  else
    match get_object pk (db st) with
    | None => ({| status_code := 404; data := NotFound |}, st)
    | Some instance =>
        let allowed_fields := [py "status"] in
        let update_data :=
          filter (fun kv => mem kv.1 allowed_fields = true) request_data in
        let bad_status :=
          match update_data !! py "status" with
          | Some (JStr v) => negb (mem v STATUS_CHOICES)
          | Some _ => true
          | None => false
          end in
        if bad_status
        then ({| status_code := 400; data := BadStatus |}, st)
        else
          let instance' :=
            serializer_update now (validated_update update_data) instance in
          ({| status_code := 200; data := Row instance' |},
           {| cache := cache st; db := store instance' (db st);
              next_pk := next_pk st |})
    end.

End Views.

(** ** admin.py *)

Section Admin.
Context {L : Libs}.

(** The add form of [FeedbackAdmin]: [ModelAdmin.save_model] calls
    [obj.save()] on the object built from the form; every model field is
    editable there. *)
Definition admin_add (now : Z) (obj : Feedback) (st : State) : State :=
  {| cache := cache st;
     db := db st ++ [save_new (next_pk st) now obj];
     next_pk := N.succ (next_pk st) |}.

End Admin.

(** ** A reference instance of [Libs]

    Executable stand-ins for the library functions, used to run the
    application on concrete requests.  They follow the libraries on the
    inputs they are run on: text in ASCII or Cyrillic, tags without
    attributes and properly closed, host names in ASCII. *)

Module Ref.

Definition lower_char (c : N) : N :=
  (if (65 <=? c) && (c <=? 90) then c + 32
   else if (1040 <=? c) && (c <=? 1071) then c + 32
   else if (1024 <=? c) && (c <=? 1039) then c + 80
   else c)%N.

Definition lower (x : pystr) : pystr := map lower_char x.

Definition is_alpha (c : N) : bool :=
  ((65 <=? c) && (c <=? 90) || (97 <=? c) && (c <=? 122))%N.

Definition is_alnum (c : N) : bool :=
  (is_alpha c || (48 <=? c) && (c <=? 57))%N.

(** What follows the first [>] of [x], if there is one. *)
Fixpoint after_gt (x : pystr) : option pystr :=
  match x with
  | [] => None
  | c :: x' => if (c =? 62)%N then Some x' else after_gt x'
  end.

(** One pass of the tag remover: [<], then a letter, [/], [!] or [?], up
    to the next [>], is dropped. *)
Fixpoint strip_once (fuel : nat) (x : pystr) : pystr :=
  match fuel, x with
  | S fuel', c :: x' =>
      match x' with
      | d :: _ =>
          if (c =? 60)%N && (is_alpha d || (d =? 47) || (d =? 33) || (d =? 63))%N
          then match after_gt x' with
               | Some rest => strip_once fuel' rest
               | None => c :: strip_once fuel' x'
               end
          else c :: strip_once fuel' x'
      | [] => [c]
      end
  | _, _ => x
  end.

Definition count (c : N) (x : pystr) : nat :=
  length (List.filter (N.eqb c) x).

(** [strip_tags]: repeat while both [<] and [>] occur and a pass still
    removes a [<]. *)
Fixpoint strip_loop (fuel : nat) (value : pystr) : pystr :=
  match fuel with
  | O => value
  | S fuel' =>
      if has_char 60 value && has_char 62 value then
        let new_value := strip_once (length value) value in
        if (count 60 value =? count 60 new_value)%nat then value
        else strip_loop fuel' new_value
      else value
  end.

Definition strip_all (value : pystr) : pystr := strip_loop 50 value.

(** [name>rest] at the start of [x]: the tag name and what follows. *)
Fixpoint tag_name (x : pystr) : option (pystr * pystr) :=
  match x with
  | [] => None
  | c :: x' =>
      if (c =? 62)%N then Some ([], x')
      else if is_alnum c
           then match tag_name x' with
                | Some (name, rest) => Some (c :: name, rest)
                | None => None
                end
           else None
  end.

(** An opening or closing tag without attributes at the start of [x]
    (after its [<]): closing flag, name, rest. *)
Definition parse_tag (x : pystr) : option (bool * pystr * pystr) :=
  match x with
  | 47 :: (c :: _) as x' =>
      if is_alpha c
      then (fun nr => (true, nr.1, nr.2)) <$> tag_name x'
      else None
  | c :: _ =>
      if is_alpha c
      then (fun nr => (false, nr.1, nr.2)) <$> tag_name x
      else None
  | [] => None
  end%N.

Definition entities : list pystr :=
  map py ["amp;"; "lt;"; "gt;"; "quot;"]%string.

(** [bleach.clean(text, tags=tags, strip=True)]: allowed tags stay, other
    tags go, and the characters [&], [<], [>] of the text are escaped. *)
Fixpoint clean (fuel : nat) (tags : list pystr) (x : pystr) : pystr :=
  match fuel, x with
  | S fuel', c :: x' =>
      if (c =? 60)%N then
        match parse_tag x' with
        | Some (closing, name, rest) =>
            (if mem (lower name) tags
             then [60%N] ++ (if closing then [47%N] else []) ++ lower name
                  ++ [62%N]
             else [])
            ++ clean fuel' tags rest
        | None => py "&lt;" ++ clean fuel' tags x'
        end
      else if (c =? 62)%N then py "&gt;" ++ clean fuel' tags x'
      else if (c =? 38)%N then
        (if existsb (fun e => startswith e x') entities
         then [c] else py "&amp;")
        ++ clean fuel' tags x'
      else c :: clean fuel' tags x'
  | _, _ => x
  end.

Definition bleach (tags : list pystr) (text : pystr) : pystr :=
  clean (length text) tags text.

(** [EmailValidator.user_regex], dot-atom alternative: one character. *)
Definition atext (c : N) : bool :=
  is_alnum c || has_char c (py "-!#$%&'*+/=?^_`{}|~").

(** The characters between the quotes of the quoted-string alternative. *)
Fixpoint quoted_text (x : pystr) : bool :=
  match x with
  | [] => true
  | c :: x' =>
      if (c =? 92)%N then
        match x' with
        | d :: x'' =>
            ((1 <=? d) && (d <=? 9) || (d =? 11) || (d =? 12)
             || (14 <=? d) && (d <=? 127))%N && quoted_text x''
        | [] => false
        end
      else
        ((1 <=? c) && (c <=? 8) || (c =? 11) || (c =? 12)
         || (14 <=? c) && (c <=? 31) || (c =? 33)
         || (35 <=? c) && (c <=? 91) || (93 <=? c) && (c <=? 127))%N
        && quoted_text x'
  end.

Definition user_ok (user_part : pystr) : bool :=
  forallb (fun w => truthy w && forallb atext w) (split 46 user_part)
  || match user_part with
     | 34%N :: x' =>
         match rev x' with
         | 34%N :: inner => quoted_text (rev inner)
         | _ => false
         end
     | _ => false
     end.

Definition label_ok (w : pystr) : bool :=
  truthy w && (length w <=? 63)%nat
  && forallb (fun c => is_alnum c || (c =? 45)%N) w
  && is_alnum (hd 0%N w) && is_alnum (List.last w 0%N).

Definition tld_ok (w : pystr) : bool :=
  (2 <=? length w)%nat && (length w <=? 63)%nat
  && forallb (fun c => is_alnum c || (c =? 45)%N) w
  && negb (List.last w 0 =? 45)%N.

Definition domain_ok (domain_part : pystr) : bool :=
  eqb domain_part (py "localhost")
  || match rev (split 46 domain_part) with
     | tld :: (_ :: _) as labels => tld_ok tld && forallb label_ok labels
     | _ => false
     end.

(** [value.rsplit('@', 1)] *)
Definition rsplit_at (value : pystr) : pystr * pystr :=
  match rev (split 64 value) with
  | domain_part :: users =>
      (concat (List.tl (concat (map (fun w => [[64%N]; w]) (rev users)))),
       domain_part)
  | [] => ([], [])
  end.

Definition email_ok (value : pystr) : bool :=
  truthy value && has_char 64 value && (length value <=? 320)%nat
  && user_ok (rsplit_at value).1 && domain_ok (rsplit_at value).2.

#[export] Instance libs : Libs := {|
  str_lower := lower;
  strip_tags := strip_all;
  bleach_clean := bleach;
  EmailValidator := email_ok;
|}.

End Ref.

(** ** The rules of the spec and the failing fields *)

Section Rules.
Context {L : Libs}.

(** The fields whose validation fails, in the order of [Meta.fields]. *)
Definition failing_fields (d : payload) : list key :=
  (if failed (field_actor (p_actor d)) then [k_actor] else [])
  ++ (if failed (field_theme (p_theme d)) then [k_theme] else [])
  ++ (if failed (field_email (p_email d)) then [k_email] else [])
  ++ (if failed (field_name_company (p_name_company d))
      then [k_name_company] else [])
  ++ (if failed (field_name_person (p_name_person d))
      then [k_name_person] else [])
  ++ (if failed (field_message (p_message d)) then [k_message] else []).

(** The rules of the spec, on the value the validators sanitize. *)

Definition theme_rule_broken (d : raw) : bool :=
  match d with
  | Str v =>
      let c := strip (strip_tags (strip v)) in
      (length c <? 5)%nat || (200 <? length c)%nat || has_spam c
  | _ => false
  end.

Definition person_rule_broken (d : raw) : bool :=
  match d with
  | Str v =>
      let c := strip (strip_tags (strip v)) in
      (length c <? 2)%nat || (100 <? length c)%nat || negb (Re.name_match c)
  | _ => false
  end.

Definition company_rule_broken (d : raw) : bool :=
  match d with
  | Str v =>
      truthy (strip v) && (150 <? length (strip (strip_tags (strip v))))%nat
  | _ => false
  end.

Definition message_rule_broken (d : raw) : bool :=
  match d with
  | Str v =>
      let c := strip (bleach_clean message_tags (strip v)) in
      (length c <? 10)%nat || (2000 <? length c)%nat || has_spam c
      || Re.repeat_search c
  | _ => false
  end.

Definition rule_broken (d : payload) : bool :=
  theme_rule_broken (p_theme d) || person_rule_broken (p_name_person d)
  || company_rule_broken (p_name_company d)
  || message_rule_broken (p_message d).

(** The rule of a field, by its key; actor and email have no length,
    charset or spam rule. *)
Definition broken (k : key) (d : payload) : bool :=
  match k with
  | k_theme => theme_rule_broken (p_theme d)
  | k_name_person => person_rule_broken (p_name_person d)
  | k_name_company => company_rule_broken (p_name_company d)
  | k_message => message_rule_broken (p_message d)
  | _ => false
  end.






(** [Meta.fields] of the create serializer, as keys. *)
Definition meta_fields : list key :=
  [k_actor; k_theme; k_email; k_name_company; k_name_person; k_message].

End Rules.

(** ** A server run *)

Record Request := {
  r_meta : meta;
  r_data : payload;
  r_now : Z;
}.

(** The create endpoint serving a list of requests one after the other. *)
Fixpoint run {L : Libs} (cfg : Settings) (rs : list Request) (st : State)
  : list Response * State :=
  match rs with
  | [] => ([], st)
  | r :: rs' =>
      let '(resp, st1) := dispatch cfg (r_meta r) (r_data r) (r_now r) st in
      let '(resps, st2) := run cfg rs' st1 in
      (resp :: resps, st2)
  end.

(** The answer did not come from the throttle. *)
Definition admitted (resp : Response) : bool :=
  negb (status_code resp =? 429)%nat.

(** Each request of a run with its answer. *)
Definition log {L : Libs} (cfg : Settings) (rs : list Request) (st : State)
  : list (Request * Response) :=
  combine rs (run cfg rs st).1.

(** The clock readings of the admitted requests that satisfy [P]. *)
Fixpoint admitted_times (P : Request -> bool)
    (lg : list (Request * Response)) : list Z :=
  match lg with
  | [] => []
  | (r, resp) :: lg' =>
      if P r && admitted resp
      then r_now r :: admitted_times P lg'
      else admitted_times P lg'
  end.

(** An anonymous request whose throttle identity is [ident]. *)
Definition anonymous_as (cfg : Settings) (ident : pystr) (r : Request) : bool :=
  match user_pk (r_meta r) with
  | None => eqb (get_ident cfg (r_meta r)) ident
  | Some _ => false
  end.

(** A request of the authenticated user [pk]. *)
Definition authenticated_as (pk : N) (r : Request) : bool :=
  match user_pk (r_meta r) with
  | Some pk' => (pk' =? pk)%N
  | None => false
  end.

(** How many of [times] lie in the hour that ends at [T]. *)
Definition within (T : Z) (times : list Z) : nat :=
  length (filter (fun t => T - HOUR < t <= T)%Z times).

(** The clock never goes back: readings start at [t0] or later and do
    not decrease. *)
Fixpoint chronological (t0 : Z) (rs : list Request) : Prop :=
  match rs with
  | [] => True
  | r :: rs' => (t0 <= r_now r)%Z /\ chronological (r_now r) rs'
  end.

(** A history kept newest first. *)
Fixpoint descending (h : list Z) : Prop :=
  match h with
  | [] => True
  | t :: h' => Forall (fun u => u <= t)%Z h' /\ descending h'
  end.

(** The history under the key [K] is kept newest first, holds nothing
    later than the clock [tl], and holds every reading of [A] that has
    not expired at [tl]. *)
Definition tracks (K : pystr) (tl : Z) (c : gmap pystr (list Z))
    (A : list Z) : Prop :=
  let h := default [] (c !! K) in
  descending h /\ Forall (fun u => u <= tl)%Z h
  /\ filter (fun t => tl - HOUR < t)%Z A `sublist_of` h.

(** ** Sample requests *)

Module Sample.

Definition MINUTE : Z := 60000000.

Definition cfg : Settings :=
  {| BLOCKED_IPS := [py "6.6.6.6"]; NUM_PROXIES := None |}.

Definition anonymous (xff : option pystr) (addr : pystr) : meta :=
  {| HTTP_X_FORWARDED_FOR := xff; REMOTE_ADDR := addr;
     HTTP_USER_AGENT := Some (py "Mozilla/5.0");
     user_pk := None; is_staff := false |}.

Definition admin : meta :=
  {| HTTP_X_FORWARDED_FOR := None; REMOTE_ADDR := py "10.0.0.1";
     HTTP_USER_AGENT := Some (py "Mozilla/5.0");
     user_pk := Some 1%N; is_staff := true |}.

Definition form (theme' email' : pystr) : payload :=
  {| p_actor := Str (py "author");
     p_theme := Str theme';
     p_email := Str email';
     p_name_company := Missing;
     p_name_person := Str (py "John Smith");
     p_message := Str (py "Hello, I would like to collaborate.") |}.

(** The example input of the spec. *)
Definition john : payload :=
  form (py "Partnership inquiry") (py "JOHN@EXAMPLE.COM ").

Definition john_attrs : attrs :=
  {| a_actor := py "author";
     a_theme := py "Partnership inquiry";
     a_email := py "john@example.com";
     a_name_company := None;
     a_name_person := py "John Smith";
     a_message := py "Hello, I would like to collaborate." |}.

Definition empty : State := {| cache := ∅; db := []; next_pk := 1 |}.

Definition request (m : meta) (d : payload) (now : Z) : Request :=
  {| r_meta := m; r_data := d; r_now := now |}.

(** Requests that share the first entry of the forwarded-for header and
    differ in the second; each carries its own theme. *)
Definition hop (k : N) : meta :=
  anonymous (Some (py "1.2.3.4, 10.0.0." ++ str_of_N k)) (py "9.9.9.9").

Definition topic (k : N) : payload :=
  form (py "Partnership inquiry " ++ str_of_N k) (py "john@example.com").

Definition minutes (k : N) : Z := Z.of_N k * MINUTE.

(** The state after the example input was accepted at time 0. *)
Definition after_john : State :=
  (@dispatch Ref.libs cfg (anonymous None (py "1.2.3.4")) john 0 empty).2.

End Sample.

(** ** More of the application: display helpers, admin actions, list and
    statistics views *)

Module Text.

(** The code points of a literal of the source that is written in UTF-8
    (the labels of models.py and admin.py are Cyrillic). *)
Fixpoint utf8 (bytes : list N) : pystr :=
  match bytes with
  | [] => []
  | b :: rest =>
      if (b <? 128)%N then b :: utf8 rest
      else if (b <? 224)%N then
        match rest with
        | b1 :: rest1 => ((b - 192) * 64 + (b1 - 128))%N :: utf8 rest1
        | [] => []
        end
      else if (b <? 240)%N then
        match rest with
        | b1 :: b2 :: rest2 =>
            ((b - 224) * 4096 + (b1 - 128) * 64 + (b2 - 128))%N :: utf8 rest2
        | _ => []
        end
      else
        match rest with
        | b1 :: b2 :: b3 :: rest3 =>
            ((b - 240) * 262144 + (b1 - 128) * 4096 + (b2 - 128) * 64
             + (b3 - 128))%N :: utf8 rest3
        | _ => []
        end
  end.

Definition pyu (x : string) : pystr := utf8 (py x).

(** [x[:n]] *)
Definition prefix (n : nat) (x : pystr) : pystr := take n x.

(** [x.replace(c, r)] for a one-character [c]. *)
Definition replace_char (c : N) (r : pystr) (x : pystr) : pystr :=
  concat (map (fun d => if (d =? c)%N then r else [d]) x).

(** A [>] comes before any line feed and before the end of [x]: the lazy
    pattern [.*?>] matches at the start of [x]. *)
Fixpoint closes (x : pystr) : bool :=
  match x with
  | [] => false
  | c :: x' =>
      if (c =? 62)%N then true
      else if (c =? 10)%N then false
      else closes x'
  end.

(** [re.sub('<.*?>', '', x)]: scanning from the left, a [<] after which
    [closes] holds is dropped together with everything up to the next
    [>]; [inside] says that such a match is being dropped. *)
Fixpoint sub_tags (inside : bool) (x : pystr) : pystr :=
  match x with
  | [] => []
  | c :: x' =>
      if inside then sub_tags (negb (c =? 62)%N) x'
      else if (c =? 60)%N && closes x' then sub_tags true x'
      else c :: sub_tags false x'
  end.

End Text.
Export Text.

(** *** models.py: display and status helpers *)

(** [dict(choices).get(value, value)]: the label of a choice, or the
    value itself. *)
Definition display (choices : list (pystr * pystr)) (value : pystr) : pystr :=
  match List.find (fun kv => eqb kv.1 value) choices with
  | Some kv => kv.2
  | None => value
  end.

Definition ACTOR_LABELS : list (pystr * pystr) :=
  [(py "advertiser", pyu "Я рекламодатель");
   (py "author", pyu "Я автор");
   (py "question", pyu "Я просто спросить")].

Definition STATUS_LABELS : list (pystr * pystr) :=
  [(py "new", pyu "Новое");
   (py "completed", pyu "Выполнено");
   (py "rejected", pyu "Отклонено")].

Definition get_actor_display (r : Feedback) : pystr :=
  display ACTOR_LABELS (actor r).

Definition get_status_display (r : Feedback) : pystr :=
  display STATUS_LABELS (status r).

(** [d.get(k, default)] for a dictionary literal. *)
Definition dict_get (d : list (pystr * pystr)) (k default : pystr) : pystr :=
  match List.find (fun kv => eqb kv.1 k) d with
  | Some kv => kv.2
  | None => default
  end.

(** [Feedback.get_status_color] *)
Definition get_status_color (r : Feedback) : pystr :=
  dict_get [(py "new", py "#FFA500"); (py "completed", py "#28A745");
            (py "rejected", py "#DC3545")]
    (status r) (py "#6C757D").

Definition is_new (r : Feedback) : bool := eqb (status r) (py "new").
Definition is_completed (r : Feedback) : bool := eqb (status r) (py "completed").
Definition is_rejected (r : Feedback) : bool := eqb (status r) (py "rejected").

(** *** admin.py: FeedbackAdmin *)

(** [theme_short] *)
Definition theme_short (obj : Feedback) : pystr :=
  if (40 <? length (theme obj))%nat
  then prefix 40 (theme obj) ++ py "..."
  else theme obj.

(** [message_short] *)
Definition message_short (obj : Feedback) : pystr :=
  let clean_message := sub_tags false (message obj) in
  if (50 <? length clean_message)%nat
  then prefix 50 clean_message ++ py "..."
  else clean_message.

Definition DAY : Z := 24 * HOUR.

(** The texts of [days_since_creation]. *)
Inductive age :=
  | Today                (* 'Сегодня' *)
  | OneDayAgo            (* '1 день назад' *)
  | DaysAgo (days : Z)   (* f'{days} дней назад' *)
  | WeeksAgo (weeks : Z) (* f'{weeks} недель назад' *)
  | MonthsAgo (months : Z). (* f'{months} месяцев назад' *)

(** [days_since_creation]; [timedelta.days] rounds towards minus
    infinity. *)
Definition days_since_creation (now : Z) (obj : Feedback) : age :=
  let days := ((now - created_at obj) / DAY)%Z in
  if (days =? 0)%Z then Today
  else if (days =? 1)%Z then OneDayAgo
  else if (days <? 7)%Z then DaysAgo days
  else if (days <? 30)%Z then WeeksAgo (days / 7)
  else MonthsAgo (days / 30).

(** [queryset.update(status=value)] on the rows whose primary key is
    selected: the number of rows matched and the table afterwards.  No
    [save] runs and [updated_at] is not touched. *)
Definition set_status (value : pystr) (r : Feedback) : Feedback :=
  {| id := id r; created_at := created_at r; actor := actor r;
     theme := theme r; email := email r; name_company := name_company r;
     name_person := name_person r; message := message r;
     status := value;
     ip_address := ip_address r; user_agent := user_agent r;
     updated_at := updated_at r |}.

Definition selected (pks : list N) (r : Feedback) : bool :=
  existsb (N.eqb (id r)) pks.

Definition queryset_update (pks : list N) (value : pystr)
    (rows : list Feedback) : nat * list Feedback :=
  (length (List.filter (selected pks) rows),
   map (fun r => if selected pks r then set_status value r else r) rows).

(** [mark_as_completed], [mark_as_rejected], [mark_as_new]: the count
    shown to the user and the state afterwards. *)
Definition mark_as (value : pystr) (pks : list N) (st : State) : nat * State :=
  let '(count, rows) := queryset_update pks value (db st) in
  (count, {| cache := cache st; db := rows; next_pk := next_pk st |}).

Definition mark_as_completed := mark_as (py "completed").
Definition mark_as_rejected := mark_as (py "rejected").
Definition mark_as_new := mark_as (py "new").

(** The rows [export_as_csv] hands to [csv.writer], header first;
    [strftime] stands for [created_at.strftime('%d.%m.%Y %H:%M')]. *)
Definition export_header : list pystr :=
  [py "ID"; pyu "Дата создания"; pyu "Роль"; pyu "Статус"; pyu "Имя";
   pyu "Компания"; py "Email"; pyu "Тема"; pyu "Сообщение"; pyu "IP адрес"].

Definition export_row (strftime : Z -> pystr) (obj : Feedback) : list pystr :=
  [str_of_N (id obj);
   strftime (created_at obj);
   get_actor_display obj;
   get_status_display obj;
   name_person obj;
   match name_company obj with
   | Some c => if truthy c then c else []
   | None => []
   end;
   email obj;
   theme obj;
   replace_char 13 [] (replace_char 10 (py " ") (message obj));
   match ip_address obj with
   | Some a => if truthy a then a else []
   | None => []
   end].

Definition export_as_csv (strftime : Z -> pystr) (queryset : list Feedback)
  : list (list pystr) :=
  export_header :: map (export_row strftime) queryset.

(** *** views.py: FeedbackListView and feedback_statistics *)





Section ListView.
(** [field__icontains=needle] of the database. *)
Context (icontains : pystr -> pystr -> bool).



End ListView.

(** [values(f).annotate(count=Count(f)).values_list(f, 'count')] as a
    dictionary. *)
Definition count_by (f : Feedback -> pystr) (rows : list Feedback)
  : gmap pystr nat :=
  foldr (fun r m => <[f r := S (default 0%nat (m !! f r))]> m) ∅ rows.

Record statistics := {
  total : nat;
  by_status : gmap pystr nat;
  by_actor : gmap pystr nat;
  recent : nat;
}.

(** [feedback_statistics] *)
Definition feedback_statistics (now : Z) (rows : list Feedback) : statistics :=
  {| total := length rows;
     by_status := count_by status rows;
     by_actor := count_by actor rows;
     recent := length (List.filter
                         (fun r => (now - 7 * DAY <=? created_at r)%Z) rows) |}.

(** *** Predicates of the properties *)

(** No whitespace at either end. *)
Definition trimmed (x : pystr) : Prop :=
  (forall c y, x = c :: y -> isspace c = false)
  /\ (forall c y, x = y ++ [c] -> isspace c = false).

(** Primary keys are unique and below the next one to be given out. *)
Definition pk_ok (st : State) : Prop :=
  NoDup (map id (db st)) /\ Forall (fun r => (id r < next_pk st)%N) (db st).

(** No history of the throttle cache is longer than [n]. *)
Definition bounded (n : nat) (c : gmap pystr (list Z)) : Prop :=
  forall k h, c !! k = Some h -> (length h <= n)%nat.

(** No [<] of the text is followed by a [>] on its line. *)
Fixpoint tagless (y : pystr) : Prop :=
  match y with
  | [] => True
  | c :: y' => (c = 60%N -> closes y' = false) /\ tagless y'
  end.


(** The columns the detail view never writes. *)
Definition frozen (r : Feedback)
  : N * Z * pystr * pystr * pystr * option pystr * option pystr :=
  (id r, created_at r, actor r, email r, status r, ip_address r, user_agent r).


(** * Properties *)

(** ** The reference instance on examples *)

Example ref_strip_tags_nested :
  Ref.strip_all (py "<<b>b>Hello</b> <i>you</i>") = py "Hello you".
Proof. vm_compute. reflexivity. Qed.

Example ref_bleach_default_keeps_b :
  Ref.bleach ALLOWED_TAGS (py "<b>Hello</b> <u>you</u> & me")
  = py "<b>Hello</b> you &amp; me".
Proof. vm_compute. reflexivity. Qed.

Example ref_email_ok_plain :
  Ref.email_ok (py "john.smith@example.com") = true
  /\ Ref.email_ok (py "john@example") = false
  /\ Ref.email_ok (py "john@@example.com") = false
  /\ Ref.rsplit_at (py "a@b@c.de") = (py "a@b", py "c.de").
Proof. vm_compute. auto. Qed.


(** ** Strings and regular expressions *)

Lemma truthy_false (x : pystr) : truthy x = false -> x = [].
Proof. destruct x; [reflexivity | discriminate]. Qed.

Lemma eqb_eq (x y : pystr) : eqb x y = true <-> x = y.
Proof. unfold eqb. apply bool_decide_eq_true. Qed.

Lemma mem_In (x : pystr) (l : list pystr) : mem x l = true <-> In x l.
Proof.
  unfold mem. rewrite existsb_exists. split.
  - intros (y & Hy & E). apply eqb_eq in E. by subst.
  - intros H. exists x. split; [done | by apply eqb_eq].
Qed.

Lemma startswith_app (p x : pystr) :
  startswith p x = true -> exists post, x = p ++ post.
Proof.
  revert x. induction p as [|a p IH]; intros x H.
  - by exists x.
  - destruct x as [|b x]; [discriminate |]. simpl in H.
    apply andb_prop in H as [E H]. apply N.eqb_eq in E. subst b.
    destruct (IH _ H) as [post ->]. by exists post.
Qed.

Lemma contains_app (p x : pystr) :
  contains p x = true -> exists pre post, x = pre ++ p ++ post.
Proof.
  induction x as [|c x IH]; simpl; intros H.
  - apply orb_prop in H as [H | H]; [| discriminate].
    apply startswith_app in H as [post E]. by exists [], post.
  - apply orb_prop in H as [H | H].
    + apply startswith_app in H as [post E]. by exists [], post.
    + destruct (IH H) as (pre & post & ->). by exists (c :: pre), post.
Qed.

Lemma split_no_sep (sep : N) (w : pystr) :
  has_char sep w = false -> split sep w = [w].
Proof.
  induction w as [|c w IH]; [done |]. cbn [has_char existsb split].
  intros H. apply orb_false_elim in H as [H1 H2].
  rewrite N.eqb_sym, H1. fold (has_char sep w) in H2. by rewrite (IH H2).
Qed.

Lemma split_at_sep (sep : N) (u w : pystr) :
  has_char sep u = false -> has_char sep w = false ->
  split sep (u ++ [sep] ++ w) = [u; w].
Proof.
  intros Hu Hw. induction u as [|c u IH].
  - cbn [app split]. rewrite N.eqb_refl. by rewrite (split_no_sep _ _ Hw).
  - cbn [has_char existsb] in Hu. apply orb_false_elim in Hu as [H1 H2].
    fold (has_char sep u) in H2.
    change ((c :: u) ++ [sep] ++ w) with (c :: (u ++ [sep] ++ w)).
    cbn [split]. rewrite N.eqb_sym, H1. by rewrite (IH H2).
Qed.

Lemma run_of_repeat (c : N) (n : nat) (post : pystr) :
  (n <= Re.run_of c (repeat c n ++ post))%nat.
Proof.
  induction n as [|n IH]; simpl; [lia |].
  rewrite N.eqb_refl. lia.
Qed.

(** A run of eleven equal characters other than the line feed, anywhere in
    the text, is found by the regular expression. *)
Lemma repeat_search_run (c : N) (pre post : pystr) :
  c <> 10%N -> Re.repeat_search (pre ++ repeat c 11 ++ post) = true.
Proof.
  intros Hc. induction pre as [|d pre IH].
  - change (repeat c 11 ++ post) with (c :: (repeat c 10 ++ post)).
    cbn [app Re.repeat_search]. apply orb_true_intro. left.
    apply andb_true_intro. split.
    + apply negb_true_iff, N.eqb_neq, Hc.
    + apply Nat.leb_le, run_of_repeat.
  - cbn [app Re.repeat_search]. rewrite IH. apply orb_true_r.
Qed.

(** A run of line feeds alone is never found. *)
Lemma repeat_search_newlines (n : nat) :
  Re.repeat_search (repeat 10%N n) = false.
Proof. induction n as [|n IH]; [reflexivity |]. simpl. exact IH. Qed.

(** ** Field validators *)

Section ValidatorFacts.
Context {L : Libs}.

Lemma validate_email_blocked (value : pystr) :
  truthy value = true ->
  In (email_domain value) suspicious_domains ->
  validate_email value = Raise TempMailForbidden.
Proof.
  intros Hv Hd. unfold validate_email. rewrite Hv. cbn [negb].
  apply mem_In in Hd. by rewrite Hd.
Qed.

Lemma validate_email_passes (value : pystr) :
  truthy value = true ->
  ~ In (email_domain value) suspicious_domains ->
  validate_email value = Ok (strip (str_lower value)).
Proof.
  intros Hv Hd. unfold validate_email. rewrite Hv. cbn [negb].
  destruct (mem _ _) eqn:E; [| done]. apply mem_In in E. contradiction.
Qed.

(** With a single [@] the checked text is everything after it. *)
Lemma email_domain_single_at (user_part domain_part : pystr) :
  has_char 64 user_part = false -> has_char 64 domain_part = false ->
  email_domain (user_part ++ [64%N] ++ domain_part) = str_lower domain_part.
Proof.
  intros Hu Hd. unfold email_domain.
  rewrite (split_at_sep 64 user_part domain_part Hu Hd).
  replace (has_char 64 (user_part ++ [64%N] ++ domain_part)) with true.
  - reflexivity.
  - unfold has_char. rewrite existsb_app. cbn [app existsb].
    rewrite N.eqb_refl. cbn [orb]. by rewrite orb_true_r.
Qed.

End ValidatorFacts.

(** ** The message validator and repeated characters *)

Section MessageFacts.
Context {L : Libs}.

Lemma validate_message_repeat_search (value : pystr) :
  Re.repeat_search (strip (bleach_clean message_tags value)) = true ->
  is_raise (validate_message value) = true.
Proof.
  intros H. unfold validate_message.
  repeat match goal with |- context [if ?b then _ else _] =>
    destruct b eqn:?; try reflexivity end.
  congruence.
Qed.

End MessageFacts.

(** C5, as stated, fails: a message whose sanitized form holds eleven
    consecutive line feeds passes the message validator, because [.] in
    the pattern does not match the line feed. *)
Lemma validate_message_accepts_newline_run :
  ~ (forall (L : Libs) (value : pystr) (c : N) (pre post : pystr),
        strip (bleach_clean message_tags value) = pre ++ repeat c 11 ++ post ->
        is_raise (validate_message value) = true).
Proof.
  intros H.
  specialize (H Ref.libs (py "hello" ++ repeat 10%N 11 ++ py "world")
                10%N (py "hello") (py "world")).
  vm_compute in H. specialize (H eq_refl). discriminate.
Qed.

(** C5 (amended): for every message whose sanitized form contains a
    single character other than the line feed repeated 11 or more times
    consecutively, the message validator rejects; in particular it
    rejects every message whose sanitized form contains "aaaaaaaaaaaa". *)
Theorem validate_message_rejects_runs {L : Libs} (value : pystr) :
  let clean_value := strip (bleach_clean message_tags value) in
  (forall (c : N) (pre post : pystr),
      c <> 10%N -> clean_value = pre ++ repeat c 11 ++ post ->
      is_raise (validate_message value) = true)
  /\ (contains (py "aaaaaaaaaaaa") clean_value = true ->
      is_raise (validate_message value) = true).
Proof.
  intros clean_value. split.
  - intros c pre post Hc E. apply validate_message_repeat_search.
    fold clean_value. rewrite E. by apply repeat_search_run.
  - intros H. apply validate_message_repeat_search. fold clean_value.
    apply contains_app in H as (pre & post & ->).
    change (py "aaaaaaaaaaaa") with (repeat 97%N 11 ++ [97%N]).
    rewrite <- (app_assoc (repeat 97%N 11)). by apply repeat_search_run.
Qed.

Lemma validate_message_rejects_runs_witness :
  let value := py "hello aaaaaaaaaaaa world" in
  (97%N <> 10%N
   /\ strip (@bleach_clean Ref.libs message_tags value)
      = py "hello " ++ repeat 97%N 11 ++ py "a world"
   /\ is_raise (@validate_message Ref.libs value) = true)
  /\ (contains (py "aaaaaaaaaaaa")
        (strip (@bleach_clean Ref.libs message_tags value)) = true
      /\ is_raise (@validate_message Ref.libs value) = true).
Proof.
  intros value. split.
  - split; [discriminate |]. split; [vm_compute; reflexivity |].
    apply (proj1 (@validate_message_rejects_runs Ref.libs value)
             97%N (py "hello ") (py "a world")).
    + discriminate.
    + vm_compute. reflexivity.
  - split; [vm_compute; reflexivity |].
    apply (proj2 (@validate_message_rejects_runs Ref.libs value)).
    vm_compute. reflexivity.
Defined.

(** ** The e-mail validator *)

(** C4: the blocklist test reads the text between the first and the
    second [@].  For the address at mailinator.com whose local part is the
    quoted string x@y (accepted by the syntax check) that text is y
    followed by the closing quote, so the address of the blocked domain
    passes and is returned. *)
Theorem quoted_local_part_passes_blocklist {L : Libs} :
  let value := 34%N :: py "x@y" ++ [34%N] ++ py "@mailinator.com" in
  EmailValidator value = true ->
  str_lower value = value ->
  str_lower (py "y" ++ [34%N]) = py "y" ++ [34%N] ->
  List.last (split 64 value) [] = py "mailinator.com"
  /\ In (py "mailinator.com") suspicious_domains
  /\ validate_email value = Ok value
  /\ field_email (Str value) = Value value.
Proof.
  intros value Hvalid Hlow Hy.
  assert (Hv : validate_email value = Ok value).
  { unfold validate_email, email_domain.
    change (has_char 64 value) with true.
    change (nth 1 (split 64 value) []) with (py "y" ++ [34%N]).
    rewrite Hy, Hlow. reflexivity. }
  split; [reflexivity |]. split; [right; right; right; left; reflexivity |].
  split; [exact Hv |].
  assert (Hs : strip value = value) by reflexivity.
  assert (Hm : max_length 254 (MaxLength 254) value = []) by reflexivity.
  assert (Hn : prohibit_null value = []) by reflexivity.
  assert (Hg : prohibit_surrogate value = []) by reflexivity.
  assert (Ht : truthy value = true) by reflexivity.
  clearbody value.
  unfold field_email, CharField, email_validators.
  rewrite Hs, Ht, Hvalid, Hm, Hn, Hg. cbn. rewrite Hv. reflexivity.
Qed.

Lemma quoted_local_part_passes_blocklist_witness :
  let value := 34%N :: py "x@y" ++ [34%N] ++ py "@mailinator.com" in
  @field_email Ref.libs (Str value) = Value value.
Proof.
  intros value.
  apply (@quoted_local_part_passes_blocklist Ref.libs); reflexivity.
Defined.

(** The spec's example: the trailing blank is trimmed and the address
    lowercased; an address of a blocked domain, in any letter case, is a
    field error. *)
Example field_email_examples :
  @field_email Ref.libs (Str (py "JOHN@EXAMPLE.COM "))
  = Value (py "john@example.com")
  /\ @field_email Ref.libs (Str (py "bob@MAILINATOR.com"))
     = Fail [TempMailForbidden].
Proof. split; vm_compute; reflexivity. Qed.

(** ** The create pipeline, step by step *)

Section Pipeline.
Context {L : Libs} (cfg : Settings).

Lemma dispatch_admitted m d now st cache' :
  check_throttles cfg m now (cache st) = (true, cache') ->
  dispatch cfg m d now st = create cfg m d now (with_cache cache' st).
Proof. intros H. unfold dispatch. by rewrite H. Qed.

Lemma dispatch_throttled m d now st cache' :
  check_throttles cfg m now (cache st) = (false, cache') ->
  dispatch cfg m d now st
  = ({| status_code := 429; data := TooManyRequests |}, with_cache cache' st).
Proof. intros H. unfold dispatch. by rewrite H. Qed.

Lemma create_blocked m d now st :
  mem (get_client_ip m) (BLOCKED_IPS cfg) = true ->
  create cfg m d now st = ({| status_code := 403; data := Forbidden |}, st).
Proof. intros H. unfold create. by rewrite H. Qed.

Lemma create_invalid m d now st errors :
  mem (get_client_ip m) (BLOCKED_IPS cfg) = false ->
  run_validation (db st) now d = inl errors ->
  create cfg m d now st = ({| status_code := 400; data := Errors errors |}, st).
Proof. intros H1 H2. unfold create. by rewrite H1, H2. Qed.

Lemma create_valid m d now st a :
  mem (get_client_ip m) (BLOCKED_IPS cfg) = false ->
  run_validation (db st) now d = inr a ->
  create cfg m d now st
  = ({| status_code := 201; data := Success (next_pk st) |},
     {| cache := cache st;
        db := db st ++ [save_new (next_pk st) now
                          (new_feedback a (get_client_ip m)
                             (default [] (HTTP_USER_AGENT m)))];
        next_pk := N.succ (next_pk st) |}).
Proof. intros H1 H2. unfold create. by rewrite H1, H2. Qed.

Lemma collect_keys {A} (k : key) (o : outcome A) :
  map fst (collect k o) = if failed o then [k] else [].
Proof. by destruct o. Qed.

Lemma to_internal_value_report (d : payload) :
  failing_fields d <> [] ->
  exists errors, to_internal_value d = inl errors
                 /\ map fst errors = failing_fields d.
Proof.
  intros Hne. unfold to_internal_value.
  set (errors := collect k_actor _ ++ _).
  assert (Hk : map fst errors = failing_fields d).
  { unfold errors, failing_fields. rewrite !map_app, !collect_keys.
    reflexivity. }
  clearbody errors. destruct errors as [|e errors].
  - simpl in Hk. congruence.
  - eexists. split; [reflexivity | exact Hk].
Qed.

Lemma to_internal_value_attrs (d : payload) (a : attrs) :
  to_internal_value d = inr a -> failing_fields d = [].
Proof.
  intros H. destruct (failing_fields d) as [|k ks] eqn:E; [done |].
  destruct (to_internal_value_report d) as (errors & H' & _); congruence.
Qed.







End Pipeline.

Example john_is_accepted :
  @to_internal_value Ref.libs Sample.john = inr Sample.john_attrs
  /\ (@dispatch Ref.libs Sample.cfg (Sample.anonymous None (py "1.2.3.4"))
        Sample.john 0 Sample.empty).1
     = {| status_code := 201; data := Success 1 |}
  /\ map (fun r => (email r, status r)) (db Sample.after_john)
     = [(py "john@example.com", py "new")].
Proof. repeat split; vm_compute; reflexivity. Qed.

(** ** The duplicate guard *)

Section Duplicates.
Context {L : Libs}.

Lemma recent_feedback_true (rows : list Feedback) (now : Z) (e t : pystr) :
  recent_feedback rows now e t = true <->
  exists r, In r rows /\ email r = e /\ theme r = t
            /\ (now - HOUR <= created_at r)%Z.
Proof.
  unfold recent_feedback. rewrite existsb_exists. split.
  - intros (r & Hin & H). apply andb_prop in H as [H H3].
    apply andb_prop in H as [H1 H2].
    apply eqb_eq in H1, H2. apply Z.leb_le in H3. by exists r.
  - intros (r & Hin & H1 & H2 & H3). exists r. split; [done |].
    apply andb_true_intro. split; [apply andb_true_intro; split |].
    + by apply eqb_eq.
    + by apply eqb_eq.
    + by apply Z.leb_le.
Qed.

Lemma recent_feedback_false (rows : list Feedback) (now : Z) (e t : pystr) :
  (forall r, In r rows -> email r = e -> theme r = t ->
             (created_at r < now - HOUR)%Z) ->
  recent_feedback rows now e t = false.
Proof.
  intros H. destruct (recent_feedback rows now e t) eqn:E; [| done].
  apply recent_feedback_true in E as (r & Hin & H1 & H2 & H3).
  specialize (H r Hin H1 H2). lia.
Qed.

End Duplicates.

(** C1: a submission that is admitted, comes from a client that is not
    blocked and passes every field validator with the validated pair
    (email, theme) is answered 400 with the duplicate error, and nothing
    is stored, when a record with that email and theme was created within
    the preceding hour; when every record with that email and theme is
    older than an hour, it is answered 201 and its record is stored. *)
Theorem duplicate_within_hour {L : Libs} (cfg : Settings)
    (m : meta) (d : payload) (now : Z) (st : State)
    (cache' : gmap pystr (list Z)) (a : attrs) :
  check_throttles cfg m now (cache st) = (true, cache') ->
  mem (get_client_ip m) (BLOCKED_IPS cfg) = false ->
  to_internal_value d = inr a ->
  ((exists r, In r (db st) /\ email r = a_email a /\ theme r = a_theme a
              /\ (now - HOUR <= created_at r)%Z) ->
   dispatch cfg m d now st
   = ({| status_code := 400;
         data := Errors [(non_field_errors, [DuplicateWithinHour])] |},
      with_cache cache' st))
  /\ ((forall r, In r (db st) -> email r = a_email a -> theme r = a_theme a ->
                 (created_at r < now - HOUR)%Z) ->
      exists feedback,
        dispatch cfg m d now st
        = ({| status_code := 201; data := Success (next_pk st) |},
           {| cache := cache'; db := db st ++ [feedback];
              next_pk := N.succ (next_pk st) |})
        /\ id feedback = next_pk st /\ email feedback = a_email a
        /\ status feedback = py "new" /\ created_at feedback = now).
Proof.
  intros Hth Hip Hv. split.
  - intros Hex. apply (recent_feedback_true (db st) now) in Hex.
    rewrite (dispatch_admitted cfg m d now st cache' Hth).
    apply create_invalid; [exact Hip |].
    unfold run_validation, validate. cbn [with_cache db]. by rewrite Hv, Hex.
  - intros Hold. apply recent_feedback_false in Hold.
    rewrite (dispatch_admitted cfg m d now st cache' Hth).
    exists (save_new (next_pk st) now
              (new_feedback a (get_client_ip m)
                 (default [] (HTTP_USER_AGENT m)))).
    split; [| cbn; auto].
    rewrite (create_valid cfg m d now (with_cache cache' st) a Hip).
    + reflexivity.
    + unfold run_validation, validate. cbn [with_cache db].
      rewrite Hv, Hold. reflexivity.
Qed.

Lemma duplicate_within_hour_witness :
  let m := Sample.anonymous None (py "1.2.3.4") in
  let early := (59 * Sample.MINUTE)%Z in
  let late := (61 * Sample.MINUTE)%Z in
  (@dispatch Ref.libs Sample.cfg m Sample.john early Sample.after_john).1
  = {| status_code := 400;
       data := Errors [(non_field_errors, [DuplicateWithinHour])] |}
  /\ (@dispatch Ref.libs Sample.cfg m Sample.john late Sample.after_john).1
     = {| status_code := 201; data := Success 2 |}.
Proof.
  intros m early late. split.
  - rewrite (proj1 (@duplicate_within_hour Ref.libs Sample.cfg m Sample.john
               early Sample.after_john
               (check_throttles Sample.cfg m early
                  (cache Sample.after_john)).2
               Sample.john_attrs
               ltac:(vm_compute; reflexivity) ltac:(vm_compute; reflexivity)
               ltac:(vm_compute; reflexivity))).
    + reflexivity.
    + eexists. split; [left; reflexivity |]. vm_compute.
      repeat split; discriminate.
  - destruct (proj2 (@duplicate_within_hour Ref.libs Sample.cfg m Sample.john
               late Sample.after_john
               (check_throttles Sample.cfg m late
                  (cache Sample.after_john)).2
               Sample.john_attrs
               ltac:(vm_compute; reflexivity) ltac:(vm_compute; reflexivity)
               ltac:(vm_compute; reflexivity))) as (feedback & E & _).
    + intros r [<- | []] _ _. vm_compute. reflexivity.
    + rewrite E. reflexivity.
Defined.

(** ** The blocklist and the throttle *)

(** C7, as stated, fails: a blocked client that is over quota is answered
    429, not 403.  Five requests of the blocked address are each answered
    403 and counted by the throttle; the sixth, within the hour, is
    refused by the throttle before the blocklist is read. *)
Lemma blocked_and_over_quota_gets_429 :
  let m := Sample.anonymous None (py "6.6.6.6") in
  let r (now : Z) := Sample.request m Sample.john now in
  mem (get_client_ip m) (BLOCKED_IPS Sample.cfg) = true
  /\ (@run Ref.libs Sample.cfg [r 1; r 2; r 3; r 4; r 5; r 6]%Z Sample.empty).1
     = repeat {| status_code := 403; data := Forbidden |} 5
       ++ [{| status_code := 429; data := TooManyRequests |}].
Proof. split; vm_compute; reflexivity. Qed.

(** C7 (amended): for every submission whose client IP is in the static
    blocklist, no record is persisted; when the rate-limit admission
    check, which runs first, admits the request, the answer is 403
    Forbidden whatever the payload, before any field validation; when the
    client is over quota the answer is the rate-limit error 429. *)
Theorem blocked_ip_never_stored {L : Libs} (cfg : Settings)
    (m : meta) (d : payload) (now : Z) (st : State) :
  mem (get_client_ip m) (BLOCKED_IPS cfg) = true ->
  db (dispatch cfg m d now st).2 = db st
  /\ (forall cache', check_throttles cfg m now (cache st) = (true, cache') ->
        dispatch cfg m d now st
        = ({| status_code := 403; data := Forbidden |}, with_cache cache' st))
  /\ (forall cache', check_throttles cfg m now (cache st) = (false, cache') ->
        dispatch cfg m d now st
        = ({| status_code := 429; data := TooManyRequests |},
           with_cache cache' st)).
Proof.
  intros Hip.
  assert (H403 : forall cache',
             check_throttles cfg m now (cache st) = (true, cache') ->
             dispatch cfg m d now st
             = ({| status_code := 403; data := Forbidden |},
                with_cache cache' st)).
  { intros cache' Hth. rewrite (dispatch_admitted cfg m d now st cache' Hth).
    by apply create_blocked. }
  split; [| split; [exact H403 | apply dispatch_throttled]].
  destruct (check_throttles cfg m now (cache st)) as [[] cache'] eqn:Hth.
  - by rewrite (H403 cache' eq_refl).
  - by rewrite (dispatch_throttled cfg m d now st cache' Hth).
Qed.

Lemma blocked_ip_never_stored_witness :
  let m := Sample.anonymous None (py "6.6.6.6") in
  db (@dispatch Ref.libs Sample.cfg m Sample.john 7 Sample.after_john).2
  = db Sample.after_john
  /\ (@dispatch Ref.libs Sample.cfg m Sample.john 7 Sample.after_john).1
     = {| status_code := 403; data := Forbidden |}.
Proof.
  intros m.
  destruct (@blocked_ip_never_stored Ref.libs Sample.cfg m Sample.john 7
              Sample.after_john ltac:(vm_compute; reflexivity))
    as (Hdb & H403 & _).
  split; [exact Hdb |].
  rewrite (H403 (check_throttles Sample.cfg m 7 (cache Sample.after_john)).2
             ltac:(vm_compute; reflexivity)).
  reflexivity.
Defined.

(** ** The detail view: update *)

Section UpdateFacts.
Context {L : Libs}.

Lemma writable_fields_empty : writable_fields = [].
Proof. vm_compute. reflexivity. Qed.

(** Every field of the list serializer is read-only: nothing of the
    request reaches [validated_data]. *)
Lemma validated_update_empty (update_data : gmap pystr json) :
  validated_update update_data = ∅.
Proof.
  unfold validated_update. apply map_empty. intros k.
  apply map_lookup_filter_None. right. intros v _ H.
  cbn [fst] in H. rewrite writable_fields_empty in H. discriminate.
Qed.

Lemma serializer_update_status (now : Z) (update_data : gmap pystr json)
    (instance : Feedback) :
  let instance' := serializer_update now (validated_update update_data) instance in
  status instance' = status instance /\ id instance' = id instance.
Proof.
  unfold serializer_update. rewrite validated_update_empty, map_fold_empty.
  split; reflexivity.
Qed.

Lemma get_object_id (pk : N) (rows : list Feedback) (r : Feedback) :
  get_object pk rows = Some r -> id r = pk.
Proof.
  unfold get_object. intros H. apply find_some in H as [_ H].
  by apply N.eqb_eq.
Qed.

Lemma store_get_object (pk : N) (rows : list Feedback) (r r' : Feedback) :
  get_object pk rows = Some r -> id r' = pk ->
  get_object pk (store r' rows) = Some r'.
Proof.
  intros H E. induction rows as [|x rows IH]; [discriminate |].
  cbn [get_object List.find] in H. cbn [store]. rewrite E.
  destruct (id x =? pk)%N eqn:Hx.
  - cbn [get_object List.find]. by rewrite E, N.eqb_refl.
  - cbn [get_object List.find]. rewrite Hx. apply IH. exact H.
Qed.

Lemma store_statuses (pk : N) (rows : list Feedback) (r r' : Feedback) :
  get_object pk rows = Some r -> id r' = pk -> status r' = status r ->
  map status (store r' rows) = map status rows.
Proof.
  intros H E Hs. induction rows as [|x rows IH]; [reflexivity |].
  cbn [get_object List.find] in H. cbn [store]. rewrite E.
  destruct (id x =? pk)%N eqn:Hx.
  - injection H as ->. cbn [map]. by rewrite Hs.
  - cbn [map]. f_equal. apply IH. exact H.
Qed.

(** No update request changes the status of any stored record. *)
Lemma update_statuses (m : meta) (pk : N) (request_data : gmap pystr json)
    (now : Z) (st : State) :
  map status (db (update m pk request_data now st).2) = map status (db st).
Proof.
  unfold update.
  destruct (negb (is_staff m)); [reflexivity |].
  destruct (get_object pk (db st)) as [instance|] eqn:Hg; [| reflexivity].
  match goal with |- context [if ?b then _ else _] => destruct b end;
    [reflexivity |].
  cbn [snd db].
  match goal with |- context [serializer_update now (validated_update ?u) _] =>
    destruct (serializer_update_status now u instance) as [Hs Hi] end.
  eapply store_statuses; [exact Hg | | exact Hs].
  rewrite Hi. by apply get_object_id in Hg.
Qed.

End UpdateFacts.

(** C2: an administrator's update carrying a recognized status value is
    answered 200, yet the stored record keeps the status it had: the
    serializer of the view has only read-only fields, so the value never
    reaches the record that is saved. *)
Theorem update_keeps_status {L : Libs} (m : meta) (pk : N)
    (request_data : gmap pystr json) (now : Z) (st : State)
    (instance : Feedback) (v : pystr) :
  is_staff m = true ->
  get_object pk (db st) = Some instance ->
  request_data !! py "status" = Some (JStr v) ->
  In v STATUS_CHOICES ->
  exists instance',
    update m pk request_data now st
    = ({| status_code := 200; data := Row instance' |},
       {| cache := cache st; db := store instance' (db st);
          next_pk := next_pk st |})
    /\ get_object pk (store instance' (db st)) = Some instance'
    /\ status instance' = status instance.
Proof.
  intros Hstaff Hg Hdata Hv. unfold update. rewrite Hstaff, Hg. cbn [negb].
  set (update_data := filter _ request_data).
  assert (Hu : update_data !! py "status" = Some (JStr v)).
  { unfold update_data. apply map_lookup_filter_Some. split; [exact Hdata |].
    vm_compute. reflexivity. }
  rewrite Hu. apply mem_In in Hv. rewrite Hv. cbn [negb].
  destruct (serializer_update_status now update_data instance) as [Hs Hi].
  eexists. split; [reflexivity |]. split; [| exact Hs].
  eapply store_get_object; [exact Hg |].
  rewrite Hi. by apply get_object_id in Hg.
Qed.

Lemma update_keeps_status_witness :
  let request_data : gmap pystr json :=
    {[ py "status" := JStr (py "completed") ]} in
  exists instance',
    (@update Ref.libs Sample.admin 1 request_data 5 Sample.after_john).1
    = {| status_code := 200; data := Row instance' |}
    /\ status instance' = py "new".
Proof.
  intros request_data.
  destruct (@update_keeps_status Ref.libs Sample.admin 1 request_data 5
              Sample.after_john
              (default (@new_feedback Sample.john_attrs [] [])
                 (get_object 1 (db Sample.after_john)))
              (py "completed"))
    as (instance' & E & _ & Hs).
  - reflexivity.
  - vm_compute. reflexivity.
  - vm_compute. reflexivity.
  - right. left. reflexivity.
  - exists instance'. rewrite E. split; [reflexivity |].
    rewrite Hs. vm_compute. reflexivity.
Defined.

(** An unrecognized status value is answered 400 and nothing is written. *)
Lemma update_rejects_unknown_status {L : Libs} (m : meta) (pk : N)
    (request_data : gmap pystr json) (now : Z) (st : State)
    (instance : Feedback) (v : pystr) :
  is_staff m = true ->
  get_object pk (db st) = Some instance ->
  request_data !! py "status" = Some (JStr v) ->
  ~ In v STATUS_CHOICES ->
  update m pk request_data now st
  = ({| status_code := 400; data := BadStatus |}, st).
Proof.
  intros Hstaff Hg Hdata Hv. unfold update. rewrite Hstaff, Hg. cbn [negb].
  set (update_data := filter _ request_data).
  assert (Hu : update_data !! py "status" = Some (JStr v)).
  { unfold update_data. apply map_lookup_filter_Some. split; [exact Hdata |].
    vm_compute. reflexivity. }
  rewrite Hu. destruct (mem v STATUS_CHOICES) eqn:E; [| reflexivity].
  apply mem_In in E. contradiction.
Qed.

(** ** What Feedback.save stores *)

(** C8: [Feedback.save] cleans theme, person name and company with the
    default tag list of bleach, not with an empty list, so markup of the
    default list survives a save that no serializer precedes.  A record
    entered through the admin add form with a bold tag in its theme is
    stored with the tag; the fact assumed of bleach is that it keeps a
    balanced [b] tag, which is in its default list. *)
Theorem admin_add_stores_markup {L : Libs} (now : Z) (obj : Feedback)
    (st : State) :
  bleach_clean ALLOWED_TAGS (py "<b>Hello</b> world") = py "<b>Hello</b> world" ->
  theme obj = py "<b>Hello</b> world" ->
  exists r,
    db (admin_add now obj st) = db st ++ [r]
    /\ theme r = py "<b>Hello</b> world"
    /\ contains (py "<b>") (theme r) = true.
Proof.
  assert (Hc : contains (py "<b>") (py "<b>Hello</b> world") = true)
    by reflexivity.
  assert (Htr : truthy (py "<b>Hello</b> world") = true) by reflexivity.
  revert Hc Htr. generalize (py "<b>Hello</b> world").
  intros t Hc Htr Hb Ht.
  exists (save_new (next_pk st) now obj). split; [reflexivity |].
  assert (E : theme (save_new (next_pk st) now obj) = t).
  { cbn [save_new save_fields theme]. rewrite Ht. unfold if_set.
    rewrite Htr. exact Hb. }
  rewrite E. split; [reflexivity | exact Hc].
Qed.

Lemma admin_add_stores_markup_witness :
  exists r,
    db (@admin_add Ref.libs 9
          (@new_feedback
             {| a_actor := py "author"; a_theme := py "<b>Hello</b> world";
                a_email := py "john@example.com"; a_name_company := None;
                a_name_person := py "John Smith";
                a_message := py "Hello, I would like to collaborate." |}
             (py "10.0.0.1") (py "Mozilla/5.0"))
          Sample.empty)
    = [r]
    /\ theme r = py "<b>Hello</b> world".
Proof.
  destruct (@admin_add_stores_markup Ref.libs 9
              (@new_feedback
                 {| a_actor := py "author"; a_theme := py "<b>Hello</b> world";
                    a_email := py "john@example.com"; a_name_company := None;
                    a_name_person := py "John Smith";
                    a_message := py "Hello, I would like to collaborate." |}
                 (py "10.0.0.1") (py "Mozilla/5.0"))
              Sample.empty)
    as (r & E & Ht & _).
  - vm_compute. reflexivity.
  - reflexivity.
  - exists r. split; [exact E | exact Ht].
Defined.

(** On the create path the theme is first stripped by the serializer:
    what is stored is the default clean-up of the validated theme. *)
Lemma create_stores_cleaned_theme {L : Libs} (a : attrs) (ip ua : pystr)
    (pk : N) (now : Z) :
  theme (save_new pk now (new_feedback a ip ua))
  = if_set (bleach_clean ALLOWED_TAGS) (a_theme a)
  /\ email (save_new pk now (new_feedback a ip ua)) = a_email a.
Proof. split; reflexivity. Qed.

(** ** The duplicate guard and the stored theme *)

Section Validated.
Context {L : Libs}.

Lemma to_internal_value_inr (d : payload) (a : attrs) :
  to_internal_value d = inr a ->
  field_actor (p_actor d) = Value (a_actor a)
  /\ field_theme (p_theme d) = Value (a_theme a)
  /\ field_email (p_email d) = Value (a_email a)
  /\ field_name_person (p_name_person d) = Value (a_name_person a)
  /\ field_message (p_message d) = Value (a_message a).
Proof.
  unfold to_internal_value.
  destruct (field_actor _); try discriminate;
  destruct (field_theme _); try discriminate;
  destruct (field_email _); try discriminate;
  destruct (field_name_company _); try discriminate;
  destruct (field_name_person _); try discriminate;
  destruct (field_message _); try discriminate;
  cbn; intros H; injection H as <-; auto.
Qed.

Lemma validate_theme_length (value t : pystr) :
  validate_theme value = Ok t -> (5 <= length t <= 200)%nat.
Proof.
  unfold validate_theme.
  repeat match goal with |- context [if ?b then _ else _] =>
    destruct b eqn:?; try discriminate end.
  intros H. injection H as <-.
  apply Nat.ltb_ge in Heqb0, Heqb1. lia.
Qed.

Lemma field_theme_length (d : raw) (t : pystr) :
  field_theme d = Value t -> (5 <= length t <= 200)%nat.
Proof.
  unfold field_theme, then_validate.
  destruct (CharField _ _ _ _ d) as [|v|]; try discriminate.
  destruct (validate_theme (or_empty v)) eqn:E; [| discriminate].
  intros H. injection H as <-. by apply validate_theme_length in E.
Qed.

End Validated.

(** C10: the lookup of the duplicate guard uses the validated theme, but
    the record is stored with the theme cleaned once more by
    [Feedback.save].  Whenever that clean-up changes the validated theme
    (bleach escapes a bare ampersand), the same submission sent again, at
    any later time, is not recognized: both are answered 201 and both are
    stored. *)
Theorem escaped_theme_defeats_duplicate_guard {L : Libs} (cfg : Settings)
    (m : meta) (d : payload) (now1 now2 : Z) (st : State)
    (cache1 cache2 : gmap pystr (list Z)) (a : attrs) :
  db st = [] ->
  check_throttles cfg m now1 (cache st) = (true, cache1) ->
  check_throttles cfg m now2 cache1 = (true, cache2) ->
  mem (get_client_ip m) (BLOCKED_IPS cfg) = false ->
  to_internal_value d = inr a ->
  bleach_clean ALLOWED_TAGS (a_theme a) <> a_theme a ->
  exists r1 r2,
    run cfg [Sample.request m d now1; Sample.request m d now2] st
    = ([{| status_code := 201; data := Success (next_pk st) |};
        {| status_code := 201; data := Success (N.succ (next_pk st)) |}],
       {| cache := cache2; db := [r1; r2];
          next_pk := N.succ (N.succ (next_pk st)) |})
    /\ email r1 = email r2 /\ theme r1 = theme r2.
Proof.
  intros Hdb Hth1 Hth2 Hip Hv Hne.
  pose proof (to_internal_value_inr d a Hv) as (_ & Ht & _).
  apply field_theme_length in Ht.
  assert (Htruthy : truthy (a_theme a) = true).
  { destruct (a_theme a); [simpl in Ht; lia | reflexivity]. }
  set (r1 := save_new (next_pk st) now1
               (new_feedback a (get_client_ip m)
                  (default [] (HTTP_USER_AGENT m)))).
  set (st1 := {| cache := cache1; db := [r1];
                 next_pk := N.succ (next_pk st) |}).
  assert (H1 : dispatch cfg m d now1 st
               = ({| status_code := 201; data := Success (next_pk st) |}, st1)).
  { rewrite (dispatch_admitted cfg m d now1 st cache1 Hth1).
    rewrite (create_valid cfg m d now1 (with_cache cache1 st) a Hip).
    - cbn [with_cache db cache next_pk]. rewrite Hdb. reflexivity.
    - unfold run_validation, validate. cbn [with_cache db].
      rewrite Hv, Hdb. reflexivity. }
  set (r2 := save_new (next_pk st1) now2
               (new_feedback a (get_client_ip m)
                  (default [] (HTTP_USER_AGENT m)))).
  assert (H2 : dispatch cfg m d now2 st1
               = ({| status_code := 201; data := Success (next_pk st1) |},
                  {| cache := cache2; db := [r1; r2];
                     next_pk := N.succ (next_pk st1) |})).
  { rewrite (dispatch_admitted cfg m d now2 st1 cache2 Hth2).
    rewrite (create_valid cfg m d now2 (with_cache cache2 st1) a Hip).
    - reflexivity.
    - unfold run_validation, validate. cbn [with_cache db st1].
      rewrite Hv. unfold recent_feedback. cbn [existsb].
      replace (eqb (theme r1) (a_theme a)) with false.
      + by rewrite andb_false_r.
      + symmetry. apply bool_decide_eq_false.
        cbn [r1 save_new save_fields new_feedback theme].
        unfold if_set. rewrite Htruthy. exact Hne. }
  exists r1, r2. split; [| split; reflexivity].
  cbn [run Sample.request r_meta r_data r_now]. rewrite H1, H2. reflexivity.
Qed.

Lemma escaped_theme_defeats_duplicate_guard_witness :
  let m := Sample.anonymous None (py "1.2.3.4") in
  let d := Sample.form (py "Q&A session") (py "john@example.com") in
  (@run Ref.libs Sample.cfg
     [Sample.request m d 0; Sample.request m d Sample.MINUTE] Sample.empty).1
  = [{| status_code := 201; data := Success 1 |};
     {| status_code := 201; data := Success 2 |}].
Proof.
  intros m d.
  destruct (@escaped_theme_defeats_duplicate_guard Ref.libs Sample.cfg m d
              0 Sample.MINUTE Sample.empty
              (check_throttles Sample.cfg m 0 ∅).2
              (check_throttles Sample.cfg m Sample.MINUTE
                 (check_throttles Sample.cfg m 0 ∅).2).2
              {| a_actor := py "author"; a_theme := py "Q&A session";
                 a_email := py "john@example.com"; a_name_company := None;
                 a_name_person := py "John Smith";
                 a_message := py "Hello, I would like to collaborate." |})
    as (r1 & r2 & E & _).
  - reflexivity.
  - vm_compute. reflexivity.
  - vm_compute. reflexivity.
  - vm_compute. reflexivity.
  - vm_compute. reflexivity.
  - vm_compute. discriminate.
  - rewrite E. reflexivity.
Defined.

(** ** The throttle keeps a sliding window *)

Section History.

Lemma descending_filter (P : Z -> Prop) `{!forall t, Decision (P t)}
    (h : list Z) :
  descending h -> descending (filter P h).
Proof.
  induction h as [|t h IH]; [done |]. intros [Hle Hd].
  rewrite filter_cons. destruct (decide (P t)); [| by apply IH].
  split; [| by apply IH].
  apply Forall_forall. intros u Hu. apply list_elem_of_filter in Hu as [_ Hu].
  rewrite Forall_forall in Hle. by apply Hle.
Qed.

(** On a history kept newest first, the loop drops exactly the expired
    entries. *)
Lemma pop_expired_filter (limit : Z) (h : list Z) :
  descending h -> pop_expired limit h = filter (fun t => limit < t)%Z h.
Proof.
  induction h as [|t h IH]; [done |]. intros [Hle Hd].
  cbn [pop_expired]. rewrite (IH Hd), filter_cons.
  destruct (filter (fun t => limit < t)%Z h) as [|u rest] eqn:E.
  - destruct (Z.leb_spec t limit); destruct (decide (limit < t)%Z);
      try reflexivity; lia.
  - assert (Hu : u ∈ filter (fun t => limit < t)%Z h)
      by (rewrite E; left).
    apply list_elem_of_filter in Hu as [Hlt Hu].
    rewrite Forall_forall in Hle. specialize (Hle u Hu).
    destruct (decide (limit < t)%Z); [reflexivity | lia].
Qed.

Lemma filter_impl_sublist (P Q : Z -> Prop) `{!forall t, Decision (P t)}
    `{!forall t, Decision (Q t)} (l : list Z) :
  (forall t, P t -> Q t) -> filter P l `sublist_of` filter Q l.
Proof.
  intros Himp. rewrite <- (list_filter_filter_l P Q l Himp).
  apply sublist_filter.
Qed.

Lemma filter_sublist_mono (P : Z -> Prop) `{!forall t, Decision (P t)}
    (l1 l2 : list Z) :
  l1 `sublist_of` l2 -> filter P l1 `sublist_of` filter P l2.
Proof.
  induction 1 as [|x l1 l2 _ IH|x l1 l2 _ IH]; [constructor | |].
  - rewrite !filter_cons. destruct (decide (P x)); [by constructor | done].
  - rewrite filter_cons. destruct (decide (P x)); [by constructor | done].
Qed.

End History.

Section Window.
Context (K : pystr).

Lemma tracks_later (tl tl' : Z) c A :
  (tl <= tl')%Z -> tracks K tl c A -> tracks K tl' c A.
Proof.
  intros Hle (Hd & Hf & Hs). split; [done |]. split.
  - eapply Forall_impl; [exact Hf |]. simpl. intros. lia.
  - etrans; [| exact Hs]. apply filter_impl_sublist. intros. lia.
Qed.

Lemma tracks_allow (tl now : Z) c A n k b c' :
  (tl <= now)%Z -> tracks K tl c A ->
  allow n HOUR k now c = (b, c') ->
  tracks K now c' A.
Proof.
  intros Hle Ht. unfold allow.
  destruct (_ <=? _)%nat; intros [= <- <-]; [by eapply tracks_later |].
  destruct (decide (k = K)) as [-> | Hne].
  - destruct Ht as (Hd & Hf & Hs). unfold tracks.
    rewrite lookup_insert_eq. cbn [default from_option id].
    rewrite (pop_expired_filter _ _ Hd).
    assert (Hall : Forall (fun u => u <= now)%Z
                     (filter (fun t => now - HOUR < t)%Z
                        (default [] (c !! K)))).
    { apply Forall_forall. intros u Hu.
      apply list_elem_of_filter in Hu as [_ Hu].
      rewrite Forall_forall in Hf. specialize (Hf u Hu). lia. }
    split; [split; [exact Hall | by apply descending_filter] |].
    split; [constructor; [lia | exact Hall] |].
    apply sublist_cons.
    rewrite <- (list_filter_filter_l (fun t => now - HOUR < t)%Z
                  (fun t => tl - HOUR < t)%Z A) by (intros; lia).
    by apply filter_sublist_mono.
  - apply (tracks_later tl now); [done |]. unfold tracks.
    by rewrite lookup_insert_ne.
Qed.

Lemma tracks_allow_hit (tl now : Z) c A n c' :
  (tl <= now)%Z -> tracks K tl c A ->
  allow n HOUR K now c = (true, c') ->
  tracks K now c' (now :: A)
  /\ (length (filter (fun t => now - HOUR < t)%Z A) < n)%nat.
Proof.
  intros Hle (Hd & Hf & Hs). unfold allow.
  rewrite (pop_expired_filter _ _ Hd).
  destruct (_ <=? _)%nat eqn:Hn; intros [= <-].
  apply Nat.leb_gt in Hn.
  assert (Hsub : filter (fun t => now - HOUR < t)%Z A
                 `sublist_of` filter (fun t => now - HOUR < t)%Z
                                (default [] (c !! K))).
  { rewrite <- (list_filter_filter_l (fun t => now - HOUR < t)%Z
                  (fun t => tl - HOUR < t)%Z A) by (intros; lia).
    by apply filter_sublist_mono. }
  split; [| apply sublist_length in Hsub; lia].
  unfold tracks. rewrite lookup_insert_eq. cbn [default from_option id].
  assert (Hall : Forall (fun u => u <= now)%Z
                   (filter (fun t => now - HOUR < t)%Z
                      (default [] (c !! K)))).
  { apply Forall_forall. intros u Hu.
    apply list_elem_of_filter in Hu as [_ Hu].
    rewrite Forall_forall in Hf. specialize (Hf u Hu). lia. }
  split; [split; [exact Hall | by apply descending_filter] |].
  split; [constructor; [lia | exact Hall] |].
  rewrite filter_cons_True by (unfold HOUR; lia).
  by apply sublist_skip.
Qed.

Lemma tracks_allow_request (tl now : Z) c A t b c' :
  (tl <= now)%Z -> tracks K tl c A ->
  allow_request t now c = (b, c') ->
  tracks K now c' A.
Proof.
  intros Hle Ht. unfold allow_request. destruct t.2 as [k|].
  - intros E. exact (tracks_allow tl now c A t.1 k b c' Hle Ht E).
  - intros [= <- <-]. by eapply tracks_later.
Qed.

Lemma tracks_check_all (ts : list (nat * option pystr)) (tl now : Z) c A b c' :
  (tl <= now)%Z -> tracks K tl c A ->
  check_all ts now c = (b, c') ->
  tracks K now c' A.
Proof.
  revert tl c b c'. induction ts as [|t ts IH]; intros tl c b c' Hle Ht.
  - intros [= <- <-]. by eapply tracks_later.
  - cbn [check_all].
    destruct (allow_request t now c) as [ok c1] eqn:E1.
    destruct (check_all ts now c1) as [oks c2] eqn:E2.
    intros [= <- <-].
    eapply (IH now); [lia | | exact E2].
    by eapply tracks_allow_request.
Qed.

(** An admitted request that a throttle of limit [n] files under [K]
    found fewer than [n] live readings, and is now tracked itself. *)
Lemma tracks_check_all_hit (ts : list (nat * option pystr)) (n : nat)
    (tl now : Z) c A c' :
  (tl <= now)%Z -> tracks K tl c A ->
  In (n, Some K) ts ->
  check_all ts now c = (true, c') ->
  tracks K now c' (now :: A)
  /\ (length (filter (fun t => now - HOUR < t)%Z A) < n)%nat.
Proof.
  revert tl c c'. induction ts as [|t ts IH]; intros tl c c' Hle Ht Hin;
    [destruct Hin |].
  cbn [check_all].
  destruct (allow_request t now c) as [ok c1] eqn:E1.
  destruct (check_all ts now c1) as [oks c2] eqn:E2.
  intros [= Hok <-]. apply andb_prop in Hok as [-> ->].
  destruct Hin as [-> | Hin].
  - unfold allow_request in E1. cbn [snd fst] in E1.
    destruct (tracks_allow_hit tl now c A n c1 Hle Ht E1) as [Ht1 Hn].
    split; [| exact Hn].
    eapply (tracks_check_all ts now now); [lia | exact Ht1 | exact E2].
  - eapply (IH now); [lia | | exact Hin | exact E2].
    by eapply tracks_allow_request.
Qed.

End Window.

Section Runs.
Context {L : Libs} (cfg : Settings).

Lemma create_not_throttled m d now st :
  admitted (create cfg m d now st).1 = true
  /\ cache (create cfg m d now st).2 = cache st.
Proof.
  unfold create. destruct (mem _ _); [done |].
  destruct (run_validation _ _ _); done.
Qed.

Lemma dispatch_throttle m d now st b cache' :
  check_throttles cfg m now (cache st) = (b, cache') ->
  admitted (dispatch cfg m d now st).1 = b
  /\ cache (dispatch cfg m d now st).2 = cache'
  /\ (b = false ->
      (dispatch cfg m d now st).1
      = {| status_code := 429; data := TooManyRequests |}).
Proof.
  intros H. unfold dispatch. rewrite H. destruct b.
  - destruct (create_not_throttled m d now (with_cache cache' st)) as [H1 H2].
    split; [exact H1 |]. split; [exact H2 | discriminate].
  - done.
Qed.

Lemma log_cons (r : Request) (rs : list Request) (st : State) :
  log cfg (r :: rs) st
  = (r, (dispatch cfg (r_meta r) (r_data r) (r_now r) st).1)
    :: log cfg rs (dispatch cfg (r_meta r) (r_data r) (r_now r) st).2.
Proof.
  unfold log. cbn [run].
  destruct (dispatch cfg (r_meta r) (r_data r) (r_now r) st) as [resp st1].
  cbn [fst snd]. destruct (run cfg rs st1) as [resps st2]. reflexivity.
Qed.

Lemma within_cons_bound (n : nat) (now : Z) (A : list Z) :
  (length (filter (fun t => now - HOUR < t)%Z A) < n)%nat ->
  (forall T, (within T A <= n)%nat) ->
  forall T, (within T (now :: A) <= n)%nat.
Proof.
  intros Hlive Hall T. unfold within. rewrite filter_cons.
  destruct (decide (T - HOUR < now <= T)%Z) as [Hin | Hout]; [| apply Hall].
  cbn [length].
  assert (Hsub : filter (fun t => T - HOUR < t <= T)%Z A
                 `sublist_of` filter (fun t => now - HOUR < t)%Z A).
  { apply filter_impl_sublist. intros. lia. }
  apply sublist_length in Hsub. lia.
Qed.

Lemma within_cons (T now : Z) (A : list Z) :
  within T (now :: A)
  = ((if decide (T - HOUR < now <= T)%Z then 1 else 0) + within T A)%nat.
Proof.
  unfold within. rewrite filter_cons. by destruct (decide _).
Qed.

(** The window bound for the requests [P] that a throttle of limit [n]
    files under the key [K], from any state whose history is tracked. *)
Lemma run_within (P : Request -> bool) (n : nat) (K : pystr) :
  (forall r, P r = true -> In (n, Some K) (throttle_classes cfg (r_meta r))) ->
  forall (rs : list Request) (st : State) (A : list Z) (tl : Z),
    tracks K tl (cache st) A ->
    chronological tl rs ->
    (forall T, (within T A <= n)%nat) ->
    forall T, (within T A + within T (admitted_times P (log cfg rs st)) <= n)%nat.
Proof.
  intros HP. induction rs as [|r rs IH]; intros st A tl Ht Hch HA T.
  - cbn. specialize (HA T). unfold within in *. cbn. lia.
  - destruct Hch as [Hle Hch]. rewrite log_cons. cbn [admitted_times].
    destruct (check_throttles cfg (r_meta r) (r_now r) (cache st))
      as [b c'] eqn:Hth.
    destruct (dispatch_throttle (r_meta r) (r_data r) (r_now r) st b c' Hth)
      as (Hadm & Hc & _).
    rewrite Hadm.
    destruct (P r && b) eqn:Hhit.
    + apply andb_prop in Hhit as [Hp ->].
      destruct (tracks_check_all_hit K _ n tl (r_now r) _ A c' Hle Ht
                  (HP r Hp) Hth) as [Ht' Hlive].
      rewrite <- Hc in Ht'.
      specialize (IH _ (r_now r :: A) (r_now r) Ht' Hch
                    (within_cons_bound n (r_now r) A Hlive HA) T).
      rewrite !within_cons in *. lia.
    + assert (Ht' : tracks K (r_now r) c' A)
        by (eapply tracks_check_all; [exact Hle | exact Ht | exact Hth]).
      rewrite <- Hc in Ht'.
      apply (IH _ A (r_now r) Ht' Hch HA T).
Qed.

Lemma tracks_empty (K : pystr) (tl : Z) : tracks K tl ∅ [].
Proof.
  unfold tracks. rewrite lookup_empty. cbn. repeat split; constructor.
Qed.

Lemma run_within_empty (P : Request -> bool) (n : nat) (K : pystr)
    (rs : list Request) (st : State) (t0 T : Z) :
  (forall r, P r = true -> In (n, Some K) (throttle_classes cfg (r_meta r))) ->
  cache st = ∅ -> chronological t0 rs ->
  (within T (admitted_times P (log cfg rs st)) <= n)%nat.
Proof.
  intros HP Hc Hch.
  pose proof (run_within P n K HP rs st [] t0) as H.
  rewrite Hc in H. specialize (H (tracks_empty K t0) Hch).
  assert (H0 : forall T', (within T' [] <= n)%nat) by (intros; cbn; lia).
  specialize (H H0 T). cbn in H. exact H.
Qed.

Lemma anonymous_as_key (ident : pystr) (r : Request) :
  anonymous_as cfg ident r = true ->
  In (5%nat, Some (cache_key (py "feedback") ident))
     (throttle_classes cfg (r_meta r)).
Proof.
  unfold anonymous_as, throttle_classes, anon_key.
  destruct (user_pk (r_meta r)); [discriminate |].
  intros H. apply eqb_eq in H. rewrite H. by left.
Qed.

Lemma authenticated_as_key (pk : N) (r : Request) :
  authenticated_as pk r = true ->
  In (10%nat, Some (cache_key (py "feedback_auth") (str_of_N pk)))
     (throttle_classes cfg (r_meta r)).
Proof.
  unfold authenticated_as, throttle_classes, user_key.
  destruct (user_pk (r_meta r)) as [pk'|]; [| discriminate].
  intros H. apply N.eqb_eq in H. rewrite H. right. by left.
Qed.

End Runs.

Section RunFacts.
Context {L : Libs} (cfg : Settings).

Lemma run_app (pre post : list Request) (st : State) :
  run cfg (pre ++ post) st
  = ((run cfg pre st).1 ++ (run cfg post (run cfg pre st).2).1,
     (run cfg post (run cfg pre st).2).2).
Proof.
  revert st. induction pre as [|r pre IH]; intros st.
  - cbn. by destruct (run cfg post st).
  - cbn [app run].
    destruct (dispatch cfg (r_meta r) (r_data r) (r_now r) st) as [resp st1].
    rewrite IH. destruct (run cfg pre st1) as [resps st2]. reflexivity.
Qed.

Lemma run_length (rs : list Request) (st : State) :
  length (run cfg rs st).1 = length rs.
Proof.
  revert st. induction rs as [|r rs IH]; intros st; [reflexivity |].
  cbn [run].
  destruct (dispatch cfg (r_meta r) (r_data r) (r_now r) st) as [resp st1].
  specialize (IH st1). destruct (run cfg rs st1) as [resps st2].
  cbn in *. by rewrite IH.
Qed.

Lemma combine_append {A B} (a a' : list A) (b b' : list B) :
  length b = length a ->
  combine (a ++ a') (b ++ b') = combine a b ++ combine a' b'.
Proof.
  revert b. induction a as [|x a IH]; intros [|y b] Hl; try discriminate.
  - reflexivity.
  - cbn. f_equal. apply IH. by injection Hl.
Qed.

Lemma log_snoc (pre : list Request) (r : Request) (st : State) :
  log cfg (pre ++ [r]) st
  = log cfg pre st
    ++ [(r, (dispatch cfg (r_meta r) (r_data r) (r_now r)
               (run cfg pre st).2).1)].
Proof.
  unfold log. rewrite run_app. cbn [fst].
  rewrite combine_append by apply run_length.
  f_equal. cbn [run].
  destruct (dispatch cfg (r_meta r) (r_data r) (r_now r) (run cfg pre st).2).
  reflexivity.
Qed.

Lemma admitted_times_app (P : Request -> bool)
    (l1 l2 : list (Request * Response)) :
  admitted_times P (l1 ++ l2) = admitted_times P l1 ++ admitted_times P l2.
Proof.
  induction l1 as [|[r resp] l1 IH]; [reflexivity |].
  cbn [app admitted_times]. destruct (P r && admitted resp); [| exact IH].
  cbn [app]. by rewrite IH.
Qed.

Lemma within_app (T : Z) (a b : list Z) :
  within T (a ++ b) = (within T a + within T b)%nat.
Proof. unfold within. by rewrite filter_app, length_app. Qed.

(** After [n] admitted requests within the hour, the next request that
    the same throttle files under the same key is answered 429. *)
Lemma run_next_throttled (P : Request -> bool) (n : nat) (K : pystr)
    (pre : list Request) (r : Request) (st : State) (t0 : Z) :
  (forall r', P r' = true ->
              In (n, Some K) (throttle_classes cfg (r_meta r'))) ->
  cache st = ∅ -> chronological t0 (pre ++ [r]) ->
  P r = true ->
  (n <= within (r_now r) (admitted_times P (log cfg pre st)))%nat ->
  (run cfg (pre ++ [r]) st).1
  = (run cfg pre st).1 ++ [{| status_code := 429; data := TooManyRequests |}].
Proof.
  intros HP Hc Hch Hp Hfull.
  pose proof (run_within_empty cfg P n K (pre ++ [r]) st t0 (r_now r)
                HP Hc Hch) as Hw.
  rewrite log_snoc, admitted_times_app, within_app in Hw.
  rewrite run_app. cbn [fst run].
  destruct (check_throttles cfg (r_meta r) (r_now r) (cache (run cfg pre st).2))
    as [b c'] eqn:Hth.
  destruct (dispatch_throttle cfg (r_meta r) (r_data r) (r_now r)
              (run cfg pre st).2 b c' Hth) as (Hadm & _ & H429).
  cbn [admitted_times] in Hw. rewrite Hp, Hadm in Hw.
  destruct b.
  - cbn [andb] in Hw. rewrite within_cons in Hw.
    destruct (decide _) as [_ | Hout] in Hw; [lia |].
    exfalso. apply Hout. unfold HOUR. lia.
  - specialize (H429 eq_refl).
    destruct (dispatch cfg (r_meta r) (r_data r) (r_now r) (run cfg pre st).2)
      as [resp st1].
    cbn [fst] in H429. by rewrite H429.
Qed.

(** *** Requests under other keys leave a key alone *)

Lemma allow_other (n : nat) (d : Z) (k k' : pystr) (now : Z)
    (c : gmap pystr (list Z)) :
  k <> k' -> (allow n d k now c).2 !! k' = c !! k'.
Proof.
  intros Hne. unfold allow. destruct (_ <=? _)%nat; [done |].
  cbn [snd]. by rewrite lookup_insert_ne.
Qed.

Lemma check_all_other (ts : list (nat * option pystr)) (now : Z)
    (c : gmap pystr (list Z)) (k' : pystr) :
  (forall n, ~ In (n, Some k') ts) ->
  (check_all ts now c).2 !! k' = c !! k'.
Proof.
  revert c. induction ts as [|[n k] ts IH]; intros c Hk; [done |].
  cbn [check_all]. unfold allow_request. cbn [fst snd].
  assert (Hts : forall n0, ~ In (n0, Some k') ts)
    by (intros n0 Hin; apply (Hk n0); by right).
  destruct k as [k|].
  - destruct (allow n HOUR k now c) as [ok c1] eqn:E1.
    specialize (IH c1 Hts).
    destruct (check_all ts now c1) as [oks c2]. cbn [snd] in *.
    rewrite IH. replace c1 with (allow n HOUR k now c).2 by (by rewrite E1).
    apply allow_other. intros ->. apply (Hk n). by left.
  - specialize (IH c Hts). by destruct (check_all ts now c).
Qed.

Lemma allow_agree (n : nat) (d : Z) (k : pystr) (now : Z)
    (c1 c2 : gmap pystr (list Z)) :
  c1 !! k = c2 !! k ->
  (allow n d k now c1).1 = (allow n d k now c2).1
  /\ forall k', c1 !! k' = c2 !! k' ->
                (allow n d k now c1).2 !! k' = (allow n d k now c2).2 !! k'.
Proof.
  intros Hk. unfold allow. rewrite Hk.
  destruct (_ <=? _)%nat; [done |]. split; [done |].
  intros k' Hk'. cbn [snd].
  destruct (decide (k = k')) as [-> | Hne].
  - by rewrite !lookup_insert_eq.
  - by rewrite !lookup_insert_ne.
Qed.

(** The decision of the throttles depends only on the histories under
    their own keys. *)
Lemma check_all_agree (ts : list (nat * option pystr)) (now : Z)
    (c1 c2 : gmap pystr (list Z)) :
  (forall n k, In (n, Some k) ts -> c1 !! k = c2 !! k) ->
  (check_all ts now c1).1 = (check_all ts now c2).1.
Proof.
  revert c1 c2. induction ts as [|[n k] ts IH]; intros c1 c2 Hk; [done |].
  cbn [check_all]. unfold allow_request. cbn [fst snd].
  destruct k as [k|].
  - destruct (allow_agree n HOUR k now c1 c2) as [Hb Hc].
    { apply (Hk n). by left. }
    destruct (allow n HOUR k now c1) as [ok1 c1'].
    destruct (allow n HOUR k now c2) as [ok2 c2'].
    cbn [fst snd] in *. subst ok2.
    specialize (IH c1' c2').
    destruct (check_all ts now c1') as [oks1 c1''].
    destruct (check_all ts now c2') as [oks2 c2''].
    cbn [fst] in *. rewrite IH; [done |].
    intros n' k' Hin. apply Hc. apply (Hk n'). by right.
  - specialize (IH c1 c2).
    destruct (check_all ts now c1) as [oks1 c1''].
    destruct (check_all ts now c2) as [oks2 c2''].
    cbn [fst] in *. rewrite IH; [done |].
    intros n' k' Hin. apply (Hk n'). by right.
Qed.

(** A request of another anonymous identity does not change the
    decision for this one, unless one identity is the other prefixed by
    the text auth_ (the cache keys of the two scopes then coincide). *)
Lemma other_identity_unaffected (m1 m2 : meta) (now1 now2 : Z)
    (c : gmap pystr (list Z)) :
  user_pk m1 = None -> user_pk m2 = None ->
  get_ident cfg m1 <> get_ident cfg m2 ->
  get_ident cfg m1 <> py "auth_" ++ get_ident cfg m2 ->
  get_ident cfg m2 <> py "auth_" ++ get_ident cfg m1 ->
  (check_throttles cfg m1 now1 (check_throttles cfg m2 now2 c).2).1
  = (check_throttles cfg m1 now1 c).1.
Proof.
  intros H1 H2 Hne Ha1 Ha2. unfold check_throttles.
  apply check_all_agree. intros n k Hin.
  apply check_all_other. intros n' Hin'.
  unfold throttle_classes, anon_key, user_key in Hin, Hin'.
  rewrite H1 in Hin. rewrite H2 in Hin'.
  unfold cache_key in Hin, Hin'. cbn in Hin, Hin', Ha1, Ha2.
  destruct Hin as [Hin | [Hin | []]]; destruct Hin' as [Hin' | [Hin' | []]];
    simplify_eq; congruence.
Qed.

(** Without a forwarded-for header the throttle identity of an
    installation that leaves [NUM_PROXIES] unset is the client IP. *)
Lemma ident_is_client_ip_without_header (m : meta) :
  NUM_PROXIES cfg = None -> HTTP_X_FORWARDED_FOR m = None ->
  get_ident cfg m = get_client_ip m.
Proof.
  intros Hn Hx. unfold get_ident, get_client_ip. by rewrite Hn, Hx.
Qed.

End RunFacts.

(** C6, as stated, fails: the throttle does not count per client IP.  Six
    anonymous requests within six minutes whose client IP is 1.2.3.4 (the
    first entry of the forwarded-for header) are all accepted, because
    the throttle files each under the whole header. *)
Lemma six_accepted_from_one_client_ip :
  let rs := map (fun k => Sample.request (Sample.hop k) (Sample.topic k)
                            (Sample.minutes k)) [1; 2; 3; 4; 5; 6]%N in
  Forall (fun r => user_pk (r_meta r) = None
                   /\ get_client_ip (r_meta r) = py "1.2.3.4") rs
  /\ (@run Ref.libs Sample.cfg rs Sample.empty).1
     = map (fun k => {| status_code := 201; data := Success k |})
         [1; 2; 3; 4; 5; 6]%N.
Proof.
  split.
  - repeat constructor.
  - vm_compute. reflexivity.
Qed.

(** C6 (amended): the throttle counts per throttle identity, which for an
    anonymous request is the whole forwarded-for header with its
    whitespace removed when the header is present and the peer address
    otherwise (NUM_PROXIES unset), and it counts every admitted request,
    accepted or not.  In a run that starts with an empty cache and whose
    clock does not go back: for every anonymous identity at most 5
    requests are admitted within any hour that ends at a time T (T
    included, T minus one hour excluded); for every authenticated user at
    most 10; after 5 admitted anonymous requests of one identity within
    the hour, the next of that identity is answered 429 with the
    rate-limit error and no field report; and a request of a different
    anonymous identity does not change the decision for this one (unless
    one identity is the other prefixed by auth_). *)
Theorem throttle_sliding_window {L : Libs} (cfg : Settings)
    (rs : list Request) (st : State) (t0 : Z) :
  cache st = ∅ ->
  chronological t0 rs ->
  (forall ident T,
      (within T (admitted_times (anonymous_as cfg ident) (log cfg rs st))
       <= 5)%nat)
  /\ (forall pk T,
         (within T (admitted_times (authenticated_as pk) (log cfg rs st))
          <= 10)%nat)
  /\ (forall pre r ident,
         rs = pre ++ [r] ->
         anonymous_as cfg ident r = true ->
         (5 <= within (r_now r)
                 (admitted_times (anonymous_as cfg ident) (log cfg pre st)))%nat ->
         (run cfg rs st).1
         = (run cfg pre st).1
           ++ [{| status_code := 429; data := TooManyRequests |}])
  /\ (forall m1 m2 now1 now2 c,
         user_pk m1 = None -> user_pk m2 = None ->
         get_ident cfg m1 <> get_ident cfg m2 ->
         get_ident cfg m1 <> py "auth_" ++ get_ident cfg m2 ->
         get_ident cfg m2 <> py "auth_" ++ get_ident cfg m1 ->
         (check_throttles cfg m1 now1 (check_throttles cfg m2 now2 c).2).1
         = (check_throttles cfg m1 now1 c).1).
Proof.
  intros Hc Hch. split; [| split; [| split]].
  - intros ident T.
    eapply run_within_empty; [apply anonymous_as_key | exact Hc | exact Hch].
  - intros pk T.
    eapply run_within_empty;
      [apply authenticated_as_key | exact Hc | exact Hch].
  - intros pre r ident -> Hp Hfull.
    eapply run_next_throttled;
      [apply (anonymous_as_key cfg ident) | exact Hc | exact Hch
      | exact Hp | exact Hfull].
  - apply other_identity_unaffected.
Qed.

Lemma throttle_sliding_window_witness :
  let m := Sample.anonymous None (py "1.2.3.4") in
  let rs := map (fun k => Sample.request m (Sample.topic k)
                            (Sample.minutes k)) [1; 2; 3; 4; 5; 6]%N in
  (@run Ref.libs Sample.cfg rs Sample.empty).1
  = map (fun k => {| status_code := 201; data := Success k |})
      [1; 2; 3; 4; 5]%N
    ++ [{| status_code := 429; data := TooManyRequests |}].
Proof.
  intros m rs.
  destruct (@throttle_sliding_window Ref.libs Sample.cfg rs Sample.empty 0
              eq_refl ltac:(vm_compute; intuition discriminate))
    as (_ & _ & H6 & _).
  rewrite (H6 (map (fun k => Sample.request m (Sample.topic k)
                               (Sample.minutes k)) [1; 2; 3; 4; 5]%N)
              (Sample.request m (Sample.topic 6) (Sample.minutes 6))
              (py "1.2.3.4") eq_refl
              ltac:(vm_compute; reflexivity)
              ltac:(vm_compute; lia)).
  vm_compute. reflexivity.
Defined.

(** * More properties of the code *)

(** ** Trimming *)

Lemma lstrip_head (x : pystr) (c : N) (y : pystr) :
  lstrip x = c :: y -> isspace c = false.
Proof.
  induction x as [|d x IH]; [discriminate |]. cbn [lstrip].
  destruct (isspace d) eqn:E; [exact IH |]. by intros [= <- _].
Qed.

Lemma lstrip_split (x : pystr) :
  exists pre, x = pre ++ lstrip x /\ forallb isspace pre = true.
Proof.
  induction x as [|d x (pre & E & Hp)]; [by exists [] |]. cbn [lstrip].
  destruct (isspace d) eqn:Hd.
  - exists (d :: pre). cbn [app forallb]. rewrite Hd, Hp. by rewrite <- E.
  - by exists [].
Qed.

Lemma rstrip_split (x : pystr) :
  exists suf, x = rstrip x ++ suf /\ forallb isspace suf = true.
Proof.
  unfold rstrip. destruct (lstrip_split (rev x)) as (pre & E & Hp).
  exists (rev pre). split.
  - rewrite <- rev_app_distr, <- E. by rewrite rev_involutive.
  - rewrite forallb_forall in *. intros c Hc. apply Hp. by apply in_rev.
Qed.

Lemma rstrip_last (x : pystr) (c : N) (y : pystr) :
  rstrip x = y ++ [c] -> isspace c = false.
Proof.
  unfold rstrip. intros E. apply (f_equal (@rev N)) in E.
  rewrite rev_involutive, rev_app_distr in E. cbn in E.
  by apply lstrip_head in E.
Qed.

Lemma strip_split (x : pystr) :
  exists pre suf, x = pre ++ strip x ++ suf.
Proof.
  unfold strip. destruct (lstrip_split x) as (pre & E1 & _).
  destruct (rstrip_split (lstrip x)) as (suf & E2 & _).
  exists pre, suf. by rewrite <- E2.
Qed.

Lemma strip_trimmed (x : pystr) : trimmed (strip x).
Proof.
  split.
  - intros c y E. unfold strip in E.
    destruct (rstrip_split (lstrip x)) as (suf & E2 & _).
    rewrite E in E2. by apply lstrip_head in E2.
  - intros c y E. by apply rstrip_last in E.
Qed.

Lemma trimmed_strip (x : pystr) : trimmed x -> strip x = x.
Proof.
  intros [Hh Hl].
  assert (E1 : lstrip x = x).
  { destruct x as [|c x]; [done |]. cbn [lstrip].
    by rewrite (Hh c x eq_refl). }
  unfold strip. rewrite E1. unfold rstrip.
  destruct (rev x) as [|c r] eqn:Er.
  - apply (f_equal (@rev N)) in Er. rewrite rev_involutive in Er.
    by rewrite Er.
  - cbn [lstrip].
    assert (E : x = rev r ++ [c]).
    { apply (f_equal (@rev N)) in Er. by rewrite rev_involutive in Er. }
    rewrite (Hl c (rev r) E). by rewrite E.
Qed.

Lemma strip_no_char (c : N) (x : pystr) :
  has_char c x = false -> has_char c (strip x) = false.
Proof.
  destruct (strip_split x) as (pre & suf & E). intros H.
  rewrite E in H. unfold has_char in *. rewrite !existsb_app in H.
  apply orb_false_elim in H as [_ H]. by apply orb_false_elim in H as [H _].
Qed.

Lemma startswith_intro (p post : pystr) : startswith p (p ++ post) = true.
Proof.
  induction p as [|a p IH]; [done |]. cbn. by rewrite N.eqb_refl, IH.
Qed.

Lemma contains_intro (p pre post : pystr) :
  contains p (pre ++ p ++ post) = true.
Proof.
  induction pre as [|c pre IH].
  - cbn [app]. destruct (p ++ post) eqn:E; cbn [contains];
      rewrite <- E, startswith_intro; done.
  - cbn [app contains]. rewrite IH. apply orb_true_r.
Qed.

(** ** What the validators return *)

Section Accepted.
Context {L : Libs}.

Lemma has_spam_false (text : pystr) :
  has_spam text = false ->
  forall word, In word spam_words ->
    forall pre post, str_lower text <> pre ++ word ++ post.
Proof.
  unfold has_spam. intros H word Hw pre post E.
  assert (Ht : existsb (fun word => contains word (str_lower text))
                 spam_words = true).
  { apply existsb_exists. exists word. split; [done |].
    rewrite E. apply contains_intro. }
  congruence.
Qed.

End Accepted.

(** X1: a theme that [validate_theme] accepts is the stripped text,
    without whitespace at either end, of 5 to 200 characters, and its
    lowercase form contains none of the spam words. *)
Theorem validate_theme_accepts {L : Libs} (value t : pystr) :
  validate_theme value = Ok t ->
  t = strip (strip_tags value) /\ trimmed t
  /\ (5 <= length t <= 200)%nat
  /\ (forall word, In word spam_words ->
        forall pre post, str_lower t <> pre ++ word ++ post).
Proof.
  intros H. pose proof (validate_theme_length value t H) as Hlen.
  unfold validate_theme in H.
  repeat match type of H with context [if ?b then _ else _] =>
    destruct b eqn:?; try discriminate end.
  injection H as <-. split; [done |]. split; [apply strip_trimmed |].
  split; [exact Hlen |]. by apply has_spam_false.
Qed.

Lemma validate_theme_accepts_witness :
  @validate_theme Ref.libs (py " <b>Partnership</b> inquiry ")
  = Ok (py "Partnership inquiry")
  /\ trimmed (py "Partnership inquiry").
Proof.
  split; [vm_compute; reflexivity |].
  apply (@validate_theme_accepts Ref.libs (py " <b>Partnership</b> inquiry ")).
  vm_compute. reflexivity.
Defined.

(** X2: a name that [validate_name_person] accepts has 2 to 100
    characters, no whitespace at either end, and only characters of the
    class: Latin or Cyrillic letters, whitespace, hyphen, period. *)
Theorem validate_name_person_accepts {L : Libs} (value t : pystr) :
  validate_name_person value = Ok t ->
  t = strip (strip_tags value) /\ trimmed t
  /\ (2 <= length t <= 100)%nat
  /\ Forall (fun c => Re.name_char c = true) t.
Proof.
  unfold validate_name_person. intros H.
  repeat match type of H with context [if ?b then _ else _] =>
    destruct b eqn:?; try discriminate end.
  injection H as <-. split; [done |]. split; [apply strip_trimmed |].
  split.
  - apply Nat.ltb_ge in Heqb0, Heqb1. lia.
  - apply negb_false_iff in Heqb2. unfold Re.name_match in Heqb2.
    apply andb_prop in Heqb2 as [_ Hall].
    apply Forall_forall. intros c Hc. rewrite forallb_forall in Hall.
    apply Hall. by apply list_elem_of_In.
Qed.

Lemma validate_name_person_accepts_witness :
  Forall (fun c => Re.name_char c = true) (py "Anna-Maria St. John").
Proof.
  apply (@validate_name_person_accepts Ref.libs (py " Anna-Maria St. John")).
  vm_compute. reflexivity.
Defined.

(** The pattern finds exactly the runs of eleven equal characters other
    than the line feed. *)
Lemma run_of_split (c : N) (x : pystr) :
  exists post, x = repeat c (Re.run_of c x) ++ post.
Proof.
  induction x as [|d x (post & E)]; [by exists [] |]. cbn [Re.run_of].
  destruct (N.eqb_spec d c) as [-> | Hne].
  - exists post. cbn [repeat app]. by rewrite <- E.
  - by exists (d :: x).
Qed.

Lemma repeat_search_found (x : pystr) :
  Re.repeat_search x = true ->
  exists c pre post, c <> 10%N /\ x = pre ++ repeat c 11 ++ post.
Proof.
  induction x as [|c x IH]; [discriminate |]. cbn [Re.repeat_search].
  intros H. apply orb_prop in H as [H | H].
  - apply andb_prop in H as [Hc Hr].
    apply negb_true_iff, N.eqb_neq in Hc. apply Nat.leb_le in Hr.
    destruct (run_of_split c x) as (post & E).
    exists c, [], (repeat c (Re.run_of c x - 10) ++ post).
    split; [exact Hc |]. cbn [app].
    change (repeat c 11) with (c :: repeat c 10). cbn [app]. f_equal.
    rewrite app_assoc, <- repeat_app.
    replace (10 + (Re.run_of c x - 10))%nat with (Re.run_of c x) by lia.
    exact E.
  - destruct (IH H) as (c' & pre & post & Hc & ->).
    by exists c', (c :: pre), post.
Qed.

(** X3: a message that [validate_message] accepts is the sanitized text,
    without whitespace at either end, of 10 to 2000 characters, free of
    spam words and of any run of eleven equal characters other than the
    line feed; and a rejection for repeated characters happens only when
    the sanitized text holds such a run. *)
Theorem validate_message_accepts {L : Libs} (value : pystr) :
  let clean_value := strip (bleach_clean message_tags value) in
  (forall t, validate_message value = Ok t ->
     t = clean_value /\ trimmed t /\ (10 <= length t <= 2000)%nat
     /\ (forall word, In word spam_words ->
           forall pre post, str_lower t <> pre ++ word ++ post)
     /\ (forall c pre post, c <> 10%N -> t <> pre ++ repeat c 11 ++ post))
  /\ (validate_message value = Raise MessageRepeats ->
      exists c pre post,
        c <> 10%N /\ clean_value = pre ++ repeat c 11 ++ post).
Proof.
  intros clean_value. split.
  - intros t H. unfold validate_message in H. fold clean_value in H.
    repeat match type of H with context [if ?b then _ else _] =>
      destruct b eqn:?; try discriminate end.
    injection H as <-. split; [done |]. split; [apply strip_trimmed |].
    split; [apply Nat.ltb_ge in Heqb0, Heqb1; lia |].
    split; [by apply has_spam_false |].
    intros c pre post Hc E.
    rewrite E, (repeat_search_run c pre post Hc) in Heqb3. discriminate.
  - intros H. unfold validate_message in H. fold clean_value in H.
    repeat match type of H with context [if ?b then _ else _] =>
      destruct b eqn:?; try discriminate end.
    by apply repeat_search_found.
Qed.

Lemma validate_message_accepts_witness :
  trimmed (py "Hello, I would like to <u>collaborate</u>.")
  /\ exists c pre post,
       c <> 10%N
       /\ strip (@bleach_clean Ref.libs message_tags (py "Yes!!!!!!!!!!!! Call me"))
          = pre ++ repeat c 11 ++ post.
Proof.
  split.
  - destruct (proj1 (@validate_message_accepts Ref.libs
                       (py " Hello, I would like to <u>collaborate</u>. "))
                (py "Hello, I would like to <u>collaborate</u>.")
                ltac:(vm_compute; reflexivity)) as (_ & Ht & _).
    exact Ht.
  - apply (proj2 (@validate_message_accepts Ref.libs
                    (py "Yes!!!!!!!!!!!! Call me"))).
    vm_compute. reflexivity.
Defined.

(** X5: [validate_actor] accepts exactly the three actors of
    [ACTOR_CHOICES] and returns the value as given. *)
Theorem validate_actor_accepts (value v : pystr) :
  validate_actor value = Ok v
  <-> (value = py "advertiser" \/ value = py "author"
       \/ value = py "question") /\ v = value.
Proof.
  unfold validate_actor. destruct (mem value ACTOR_CHOICES) eqn:E; cbn [negb].
  - apply mem_In in E. split.
    + intros [= <-]. split; [| done].
      destruct E as [<- | [<- | [<- | []]]]; auto.
    + by intros [_ ->].
  - split; [discriminate |]. intros [H _].
    assert (Hin : In value ACTOR_CHOICES).
    { destruct H as [-> | [-> | ->]]; cbn; auto. }
    apply mem_In in Hin. congruence.
Qed.

(** X6: [validate_email] does not check the syntax: a non-empty value
    without any [@] is never rejected by it, whatever it is, and comes
    back lowercased and trimmed; every value it returns is free of
    whitespace at both ends. *)
Theorem validate_email_without_at {L : Libs} (value : pystr) :
  value <> [] -> has_char 64 value = false ->
  validate_email value = Ok (strip (str_lower value))
  /\ trimmed (strip (str_lower value)).
Proof.
  intros Hne Hat. split; [| apply strip_trimmed].
  unfold validate_email, email_domain. rewrite Hat.
  destruct value; [done |]. reflexivity.
Qed.

Lemma validate_email_without_at_witness :
  @validate_email Ref.libs (py " Not An Address ") = Ok (py "not an address").
Proof.
  rewrite (proj1 (@validate_email_without_at Ref.libs (py " Not An Address ")
                    ltac:(discriminate) ltac:(reflexivity))).
  vm_compute. reflexivity.
Defined.

(** ** The client IP *)

Lemma split_head_no_sep (sep : N) (x : pystr) :
  has_char sep (nth 0 (split sep x) []) = false.
Proof.
  induction x as [|c x IH]; [reflexivity |]. cbn [split].
  destruct (N.eqb_spec c sep) as [-> | Hne]; [reflexivity |].
  destruct (split sep x) as [|w ws]; cbn [nth] in *.
  - cbn. apply N.eqb_neq in Hne. by rewrite N.eqb_sym, Hne.
  - cbn [has_char existsb]. apply N.eqb_neq in Hne.
    rewrite N.eqb_sym, Hne. exact IH.
Qed.

(** X7: [get_client_ip] returns the peer address when the forwarded-for
    header is absent or empty; otherwise it returns the text before the
    first comma of the header, trimmed, and that text holds no comma and
    no whitespace at either end, whatever the header is. *)
Theorem get_client_ip_cases (m : meta) :
  match HTTP_X_FORWARDED_FOR m with
  | None | Some [] => get_client_ip m = REMOTE_ADDR m
  | Some x =>
      get_client_ip m = strip (nth 0 (split 44 x) [])
      /\ has_char 44 (get_client_ip m) = false
      /\ trimmed (get_client_ip m)
      /\ exists rest, (x = nth 0 (split 44 x) [] ++ rest)
                      /\ (rest = [] \/ hd 0%N rest = 44%N)
  end.
Proof.
  unfold get_client_ip.
  destruct (HTTP_X_FORWARDED_FOR m) as [[|c x]|]; try reflexivity.
  cbn [truthy]. split; [reflexivity |].
  split; [apply strip_no_char, split_head_no_sep |].
  split; [apply strip_trimmed |].
  generalize (c :: x). clear. intros x.
  induction x as [|c x (rest & E & Hr)]; [by exists []; auto |].
  cbn [split]. destruct (N.eqb_spec c 44) as [-> | Hne].
  - exists (44%N :: x). cbn. auto.
  - destruct (split 44 x) as [|w ws] eqn:Es; cbn [nth] in *.
    + exists x. split; [done |]. destruct x; [auto |]. cbn in E. by subst.
    + exists rest. split; [| exact Hr]. cbn [app]. by rewrite <- E.
Qed.

(** ** What the create view does to the table *)

Section CreateFacts.
Context {L : Libs} (cfg : Settings).

Lemma create_outcome (m : meta) (d : payload) (now : Z) (st : State) :
  (exists r,
      create cfg m d now st
      = ({| status_code := 201; data := Success (next_pk st) |},
         {| cache := cache st; db := db st ++ [r];
            next_pk := N.succ (next_pk st) |})
      /\ id r = next_pk st /\ status r = py "new"
      /\ created_at r = now /\ updated_at r = now
      /\ (ip_address r = None <-> get_client_ip m = [])
      /\ user_agent r = Some (default [] (HTTP_USER_AGENT m)))
  \/ ((create cfg m d now st).2 = st
      /\ (status_code (create cfg m d now st).1 = 400%nat
          \/ status_code (create cfg m d now st).1 = 403%nat)).
Proof.
  unfold create. destruct (mem _ _); [right; auto |].
  destruct (run_validation _ _ _) as [errors|a]; [right; auto |].
  left. eexists. split; [reflexivity |]. cbn.
  repeat (split; [reflexivity |]). split; [| reflexivity].
  destruct (get_client_ip m); cbn; split; congruence.
Qed.

(** The two outcomes of a POST, shared by the statements below. *)
Lemma dispatch_cases (m : meta) (d : payload) (now : Z) (st : State) :
  let resp := (dispatch cfg m d now st).1 in
  let st' := (dispatch cfg m d now st).2 in
  (exists r,
      resp = {| status_code := 201; data := Success (id r) |}
      /\ db st' = db st ++ [r] /\ next_pk st' = N.succ (next_pk st)
      /\ id r = next_pk st /\ status r = py "new"
      /\ created_at r = now /\ updated_at r = now
      /\ (ip_address r = None <-> get_client_ip m = [])
      /\ user_agent r = Some (default [] (HTTP_USER_AGENT m)))
  \/ ((status_code resp = 400%nat \/ status_code resp = 403%nat
       \/ status_code resp = 429%nat)
      /\ db st' = db st /\ next_pk st' = next_pk st).
Proof.
  cbn zeta. unfold dispatch.
  destruct (check_throttles cfg m now (cache st)) as [[] cache']; [| right; auto].
  destruct (create_outcome m d now (with_cache cache' st))
    as [(r & E & Hid & H) | (E & Hs)].
  - left. exists r. rewrite E. cbn [fst snd db next_pk with_cache].
    rewrite Hid. auto 10.
  - right. rewrite E. cbn [snd with_cache db next_pk]. intuition.
Qed.

End CreateFacts.

(** X8: a POST to the create endpoint has one of two outcomes.  Either it
    is answered 201 with the new primary key, and exactly one record is
    appended to the table, with status new, both dates set to the clock,
    the user agent of the request, an IP address that is NULL exactly
    when the client IP is the empty string, and the next primary key
    advanced by one; or it is answered 400, 403 or 429, and the table
    and the next primary key are left as they were.  Stored records are
    never changed or removed. *)
Theorem dispatch_outcome {L : Libs} (cfg : Settings) (m : meta) (d : payload)
    (now : Z) (st : State) :
  let resp := (dispatch cfg m d now st).1 in
  let st' := (dispatch cfg m d now st).2 in
  (exists r,
      resp = {| status_code := 201; data := Success (id r) |}
      /\ db st' = db st ++ [r] /\ next_pk st' = N.succ (next_pk st)
      /\ id r = next_pk st /\ status r = py "new"
      /\ created_at r = now /\ updated_at r = now
      /\ (ip_address r = None <-> get_client_ip m = [])
      /\ user_agent r = Some (default [] (HTTP_USER_AGENT m)))
  \/ ((status_code resp = 400%nat \/ status_code resp = 403%nat
       \/ status_code resp = 429%nat)
      /\ db st' = db st /\ next_pk st' = next_pk st).
Proof.
  cbn zeta.
  destruct (dispatch_cases cfg m d now st) as [(r & H) | H]; cbn zeta in H.
  - left. by exists r.
  - by right.
Qed.

Section Keys.
Context {L : Libs} (cfg : Settings).

Lemma pk_ok_append (st : State) (r : Feedback) (c : gmap pystr (list Z)) :
  pk_ok st -> id r = next_pk st ->
  pk_ok {| cache := c; db := db st ++ [r]; next_pk := N.succ (next_pk st) |}.
Proof.
  intros [Hnd Hlt] Hid. unfold pk_ok. cbn [db next_pk]. split.
  - rewrite map_app. cbn [map]. apply NoDup_app. split; [exact Hnd |].
    split; [| apply NoDup_singleton].
    intros k Hk Hk'. apply list_elem_of_singleton in Hk'. subst k.
    apply list_elem_of_fmap in Hk as (x & Hx & Hin).
    rewrite Forall_forall in Hlt. specialize (Hlt x Hin). lia.
  - apply Forall_app. split.
    + eapply Forall_impl; [exact Hlt |]. cbn. intros. lia.
    + constructor; [lia | constructor].
Qed.

Lemma pk_ok_dispatch (m : meta) (d : payload) (now : Z) (st : State) :
  pk_ok st -> pk_ok (dispatch cfg m d now st).2.
Proof.
  intros Hok.
  destruct (dispatch_cases cfg m d now st)
    as [(r & _ & Hdb & Hn & Hid & _) | (_ & Hdb & Hn)];
    cbn zeta in *.
  - pose proof (pk_ok_append st r ∅ Hok Hid) as [H1 H2].
    unfold pk_ok. rewrite Hdb, Hn. by split.
  - destruct Hok as [H1 H2]. unfold pk_ok. rewrite Hdb, Hn. by split.
Qed.

Lemma run_counts (rs : list Request) (st : State) :
  pk_ok st ->
  pk_ok (run cfg rs st).2
  /\ (exists new, db (run cfg rs st).2 = db st ++ new
        /\ length new
           = length (List.filter (fun resp => (status_code resp =? 201)%nat)
                       (run cfg rs st).1)
        /\ map (fun r => Success (id r)) new
           = map data
               (List.filter (fun resp => (status_code resp =? 201)%nat)
                  (run cfg rs st).1)).
Proof.
  revert st. induction rs as [|r rs IH]; intros st Hok.
  - cbn. split; [done |]. exists []. by rewrite app_nil_r.
  - cbn [run].
    pose proof (pk_ok_dispatch (r_meta r) (r_data r) (r_now r) st Hok) as Hok1.
    pose proof (dispatch_cases cfg (r_meta r) (r_data r) (r_now r) st) as Ho.
    cbn zeta in Ho.
    destruct (dispatch cfg (r_meta r) (r_data r) (r_now r) st) as [resp st1].
    cbn [fst snd] in *.
    destruct (IH st1 Hok1) as (Hok2 & new & Hdb & Hlen & Hdata).
    destruct (run cfg rs st1) as [resps st2]. cbn [fst snd] in *.
    split; [exact Hok2 |].
    destruct Ho as [(x & -> & Hdb1 & _) | (Hs & Hdb1 & _)].
    + exists (x :: new). rewrite Hdb, Hdb1, <- app_assoc.
      split; [done |]. cbn. by rewrite Hlen, Hdata.
    + exists new. rewrite Hdb, Hdb1. split; [done |].
      cbn [List.filter].
      destruct (status_code resp =? 201)%nat eqn:E; [| done].
      apply Nat.eqb_eq in E. rewrite E in Hs.
      destruct Hs as [Hs | [Hs | Hs]]; discriminate.
Qed.

End Keys.

(** X9: over a whole run of the create endpoint, from a state whose
    primary keys are unique and below the next key, the keys stay unique
    and below the next key; the table at the end is the table at the
    start followed by one record per 201 answer, in the order of the
    answers, each under the key its answer announced. *)
Theorem run_appends_one_per_201 {L : Libs} (cfg : Settings)
    (rs : list Request) (st : State) :
  pk_ok st ->
  pk_ok (run cfg rs st).2
  /\ exists new,
       db (run cfg rs st).2 = db st ++ new
       /\ map (fun r => Success (id r)) new
          = map data
              (List.filter (fun resp => (status_code resp =? 201)%nat)
                 (run cfg rs st).1).
Proof.
  intros Hok. destruct (run_counts cfg rs st Hok) as (H1 & new & H2 & _ & H3).
  split; [exact H1 |]. by exists new.
Qed.

Lemma run_appends_one_per_201_witness :
  let m := Sample.anonymous None (py "1.2.3.4") in
  let rs := [Sample.request m Sample.john 0;
             Sample.request m Sample.john 1;
             Sample.request m (Sample.topic 2) 2] in
  pk_ok (@run Ref.libs Sample.cfg rs Sample.empty).2
  /\ map id (db (@run Ref.libs Sample.cfg rs Sample.empty).2) = [1; 2]%N.
Proof.
  intros m rs.
  destruct (@run_appends_one_per_201 Ref.libs Sample.cfg rs Sample.empty)
    as (Hok & _).
  - split; [constructor | constructor].
  - split; [exact Hok |]. vm_compute. reflexivity.
Defined.

(** ** The throttle history *)

(** X10: the loop that drops expired entries removes a tail of the
    history whose entries are all at or before the limit, keeps the rest
    in order, and stops at the first entry from the end that is newer
    than the limit, whatever the order of the history. *)
Theorem pop_expired_cases (limit : Z) (history : list Z) :
  exists expired,
    history = pop_expired limit history ++ expired
    /\ Forall (fun t => t <= limit)%Z expired
    /\ match last (pop_expired limit history) with
       | Some t => (limit < t)%Z
       | None => True
       end.
Proof.
  induction history as [|t h (expired & E & Hall & Hlast)].
  - exists []. split; [reflexivity |]. split; [constructor | exact I].
  - cbn [pop_expired]. destruct (pop_expired limit h) as [|u rest] eqn:Ep.
    + cbn [app] in E. subst h. destruct (Z.leb_spec t limit) as [Hle | Hgt].
      * exists (t :: expired). split; [reflexivity |].
        split; [by constructor | exact I].
      * exists expired. split; [reflexivity |].
        split; [exact Hall | exact Hgt].
    + exists expired. split; [cbn [app]; f_equal; exact E |].
      split; [exact Hall |]. rewrite last_cons_cons. exact Hlast.
Qed.

Section Bounded.
Context (cfg : Settings).

Lemma bounded_allow (n bound : nat) (k : pystr) (now : Z)
    (c : gmap pystr (list Z)) :
  (n <= bound)%nat -> bounded bound c ->
  bounded bound (allow n HOUR k now c).2.
Proof.
  intros Hn Hb. unfold allow. destruct (_ <=? _)%nat eqn:E; [done |].
  apply Nat.leb_gt in E. cbn [snd]. intros k' h.
  destruct (decide (k = k')) as [<- | Hne].
  - rewrite lookup_insert_eq. intros [= <-]. cbn [length]. lia.
  - rewrite lookup_insert_ne by done. apply Hb.
Qed.

Lemma bounded_check_all (ts : list (nat * option pystr)) (bound : nat)
    (now : Z) (c : gmap pystr (list Z)) :
  Forall (fun t => (t.1 <= bound)%nat) ts -> bounded bound c ->
  bounded bound (check_all ts now c).2.
Proof.
  revert c. induction ts as [|[n k] ts IH]; intros c Hts Hb; [done |].
  apply Forall_cons in Hts as [Hn Hts]. cbn [check_all].
  unfold allow_request. cbn [fst snd] in *.
  destruct k as [k|].
  - pose proof (bounded_allow n bound k now c Hn Hb) as Hb1.
    destruct (allow n HOUR k now c) as [ok c1]. cbn [snd] in Hb1.
    specialize (IH c1 Hts Hb1). by destruct (check_all ts now c1).
  - specialize (IH c Hts Hb). by destruct (check_all ts now c).
Qed.

End Bounded.

(** X11: the throttle cache stays small: if no stored history has more
    than 10 timestamps, none has after the throttles have looked at a
    request, whoever sends it and whether it is admitted or not. *)
Theorem check_throttles_bounded (cfg : Settings) (m : meta) (now : Z)
    (c : gmap pystr (list Z)) :
  bounded 10 c -> bounded 10 (check_throttles cfg m now c).2.
Proof.
  intros Hb. unfold check_throttles. apply bounded_check_all; [| exact Hb].
  unfold throttle_classes. repeat constructor; cbn; lia.
Qed.

Lemma check_throttles_bounded_witness :
  let m := {| HTTP_X_FORWARDED_FOR := None; REMOTE_ADDR := py "10.0.0.7";
              HTTP_USER_AGENT := None; user_pk := Some 7%N;
              is_staff := false |} in
  let k := cache_key (py "feedback_auth") (py "7") in
  let c : gmap pystr (list Z) := {[ k := [9; 8; 7; 6; 5; 4; 3; 2; 1]%Z ]} in
  bounded 10 (check_throttles Sample.cfg m 10 c).2
  /\ (check_throttles Sample.cfg m 10 c).1 = true
  /\ length <$> (check_throttles Sample.cfg m 10 c).2 !! k = Some 10%nat
  /\ (check_throttles Sample.cfg m 11 (check_throttles Sample.cfg m 10 c).2).1
     = false.
Proof.
  intros m k c. split; [| repeat split; vm_compute; reflexivity].
  apply (check_throttles_bounded Sample.cfg m 10 c).
  intros k' h H. apply lookup_singleton_Some in H as [_ <-]. cbn. lia.
Defined.

(** ** The detail view *)

Section DetailFacts.
Context {L : Libs}.

Lemma serializer_update_frozen (now : Z) (update_data : gmap pystr json)
    (instance : Feedback) :
  frozen (serializer_update now (validated_update update_data) instance)
  = frozen instance.
Proof.
  unfold serializer_update. by rewrite validated_update_empty, map_fold_empty.
Qed.

Lemma store_others (r' : Feedback) (rows : list Feedback) :
  List.filter (fun r => negb (id r =? id r')%N) (store r' rows)
  = List.filter (fun r => negb (id r =? id r')%N) rows.
Proof.
  induction rows as [|x rows IH]; [done |]. cbn [store].
  destruct (N.eqb_spec (id x) (id r')) as [E | Hne].
  - cbn [List.filter]. rewrite N.eqb_refl.
    apply N.eqb_eq in E. by rewrite E.
  - cbn [List.filter]. by rewrite IH.
Qed.

End DetailFacts.

(** X12: whatever the request, the update of the detail view never adds,
    removes or reorders records, and never changes the primary key, the
    creation date, the actor, the email, the status, the IP address or
    the user agent of any record; it leaves the record count, the next
    primary key and the throttle cache alone, and records other than the
    addressed one are left exactly as they were. *)
Theorem update_frozen_columns {L : Libs} (m : meta) (pk : N)
    (request_data : gmap pystr json) (now : Z) (st : State) :
  let st' := (update m pk request_data now st).2 in
  map frozen (db st') = map frozen (db st)
  /\ List.filter (fun r => negb (id r =? pk)%N) (db st')
     = List.filter (fun r => negb (id r =? pk)%N) (db st)
  /\ next_pk st' = next_pk st /\ cache st' = cache st.
Proof.
  cbn zeta. unfold update.
  destruct (negb (is_staff m)); [done |].
  destruct (get_object pk (db st)) as [instance|] eqn:Hg; [| done].
  match goal with |- context [if ?b then _ else _] => destruct b end;
    [done |].
  cbn [snd db next_pk cache].
  match goal with |- context [serializer_update now (validated_update ?u) _] =>
    pose proof (serializer_update_frozen now u instance) as Hf;
    generalize dependent (serializer_update now (validated_update u) instance)
  end.
  intros instance' Hf.
  assert (Hid : id instance' = pk).
  { apply get_object_id in Hg. unfold frozen in Hf. congruence. }
  split; [| split; [| done]].
  - unfold get_object in Hg. revert Hg. generalize (db st).
    induction l as [|x rows IH]; [done |]. cbn [List.find store]. rewrite Hid.
    destruct (N.eqb_spec (id x) pk) as [E | Hne].
    + intros [= ->]. cbn [map]. by rewrite Hf.
    + intros Hg. cbn [map]. f_equal. by apply IH.
  - rewrite <- Hid. apply store_others.
Qed.

(** X13: the update of the detail view answers, in this order of
    precedence: 403 to a user who is not staff; 404 when no record has
    the primary key; 400 when the payload has a status that is not one
    of the recognized strings; in these three cases the state is left
    untouched.  Otherwise (no status in the payload, or a recognized
    one) it answers 200 with the saved record, which is then the record
    found under that primary key, whose [updated_at] is the clock and
    whose other protected columns are those of the record before. *)
Theorem update_outcome {L : Libs} (m : meta) (pk : N)
    (request_data : gmap pystr json) (now : Z) (st : State) :
  let resp := (update m pk request_data now st).1 in
  let st' := (update m pk request_data now st).2 in
  (is_staff m = false -> status_code resp = 403%nat /\ st' = st)
  /\ (is_staff m = true -> get_object pk (db st) = None ->
      status_code resp = 404%nat /\ st' = st)
  /\ (forall instance x,
        is_staff m = true -> get_object pk (db st) = Some instance ->
        request_data !! py "status" = Some x ->
        (forall v, x = JStr v -> ~ In v STATUS_CHOICES) ->
        status_code resp = 400%nat /\ st' = st)
  /\ (forall instance,
        is_staff m = true -> get_object pk (db st) = Some instance ->
        (request_data !! py "status" = None
         \/ exists v, request_data !! py "status" = Some (JStr v)
                      /\ In v STATUS_CHOICES) ->
        exists instance',
          resp = {| status_code := 200; data := Row instance' |}
          /\ get_object pk (db st') = Some instance'
          /\ updated_at instance' = now
          /\ frozen instance' = frozen instance).
Proof.
  cbn zeta.
  assert (Hlook : forall (o : option json),
             request_data !! py "status" = o ->
             filter (fun kv : pystr * json => mem kv.1 [py "status"] = true)
               request_data !! py "status" = o).
  { intros [x|] Ho.
    - apply map_lookup_filter_Some. split; [exact Ho |].
      vm_compute. reflexivity.
    - apply map_lookup_filter_None. by left. }
  split; [| split; [| split]].
  - intros Hs. unfold update. by rewrite Hs.
  - intros Hs Hg. unfold update. by rewrite Hs, Hg.
  - intros instance x Hs Hg Hx Hbad. unfold update. rewrite Hs, Hg.
    cbn [negb]. rewrite (Hlook _ Hx).
    destruct x as [|v| |]; try done.
    destruct (mem v STATUS_CHOICES) eqn:E; [| done].
    apply mem_In in E. by destruct (Hbad v eq_refl).
  - intros instance Hs Hg Hst. unfold update. rewrite Hs, Hg. cbn [negb].
    assert (Hok : match filter (fun kv : pystr * json =>
                                  mem kv.1 [py "status"] = true)
                          request_data !! py "status" with
                  | Some (JStr v) => negb (mem v STATUS_CHOICES)
                  | Some _ => true
                  | None => false
                  end = false).
    { destruct Hst as [Hn | (v & Hv & Hin)].
      - by rewrite (Hlook _ Hn).
      - rewrite (Hlook _ Hv). apply mem_In in Hin. by rewrite Hin. }
    rewrite Hok.
    eexists. split; [reflexivity |]. cbn [snd db].
    match goal with |- context [serializer_update now (validated_update ?u) _] =>
      pose proof (serializer_update_frozen now u instance) as Hf;
      destruct (serializer_update_status now u instance) as [_ Hi] end.
    split; [| split; [reflexivity | exact Hf]].
    eapply store_get_object; [exact Hg |].
    rewrite Hi. by apply get_object_id in Hg.
Qed.

Lemma update_outcome_witness :
  let ask (m : meta) (pk : N) (v : pystr) :=
    (@update Ref.libs m pk {[ py "status" := JStr v ]} 5 Sample.after_john) in
  status_code (ask (Sample.anonymous None (py "1.2.3.4")) 1%N (py "completed")).1
  = 403%nat
  /\ status_code (ask Sample.admin 2%N (py "completed")).1 = 404%nat
  /\ (status_code (ask Sample.admin 1%N (py "done")).1 = 400%nat
      /\ (ask Sample.admin 1%N (py "done")).2 = Sample.after_john)
  /\ exists instance',
       (ask Sample.admin 1%N (py "rejected")).1
       = {| status_code := 200; data := Row instance' |}
       /\ updated_at instance' = 5%Z.
Proof.
  intros ask.
  pose (this := default (new_feedback Sample.john_attrs [] [])
                  (get_object 1 (db Sample.after_john))).
  split; [| split; [| split]].
  - apply (proj1 (@update_outcome Ref.libs
                    (Sample.anonymous None (py "1.2.3.4")) 1
                    {[ py "status" := JStr (py "completed") ]} 5
                    Sample.after_john)).
    reflexivity.
  - apply (proj1 (proj2 (@update_outcome Ref.libs Sample.admin 2
                           {[ py "status" := JStr (py "completed") ]} 5
                           Sample.after_john)));
      [reflexivity | vm_compute; reflexivity].
  - apply (proj1 (proj2 (proj2 (@update_outcome Ref.libs Sample.admin 1
                                  {[ py "status" := JStr (py "done") ]} 5
                                  Sample.after_john)))
             this (JStr (py "done")));
      [reflexivity | vm_compute; reflexivity | vm_compute; reflexivity |].
    intros v [= <-] Hin. vm_compute in Hin. intuition discriminate.
  - destruct (proj2 (proj2 (proj2 (@update_outcome Ref.libs Sample.admin 1
                                     {[ py "status" := JStr (py "rejected") ]}
                                     5 Sample.after_john)))
                this ltac:(reflexivity) ltac:(vm_compute; reflexivity))
      as (instance' & E & _ & Hu & _).
    + right. exists (py "rejected"). split; [vm_compute; reflexivity |].
      right. right. left. reflexivity.
    + exists instance'. split; [exact E | exact Hu].
Defined.

(** ** models.py: status helpers *)

(** X14: for every record, at most one of [is_new], [is_completed] and
    [is_rejected] holds; one of them holds exactly when the status is one
    of [STATUS_CHOICES], and exactly then [get_status_color] is not the
    fallback grey. *)
Theorem status_flags (r : Feedback) :
  (Nat.b2n (is_new r) + Nat.b2n (is_completed r) + Nat.b2n (is_rejected r)
   = Nat.b2n (mem (status r) STATUS_CHOICES))%nat
  /\ (get_status_color r = py "#6C757D"
      <-> mem (status r) STATUS_CHOICES = false).
Proof.
  unfold is_new, is_completed, is_rejected, get_status_color, dict_get, mem,
    STATUS_CHOICES.
  cbn [map existsb List.find fst snd].
  assert (Hsym : forall a b, eqb a b = eqb b a).
  { intros a b. unfold eqb. apply bool_decide_ext. split; congruence. }
  rewrite !(Hsym (py _) (status r)).
  destruct (eqb (status r) (py "new")) eqn:E1.
  { apply eqb_eq in E1. rewrite E1. split; [reflexivity |].
    split; discriminate. }
  destruct (eqb (status r) (py "completed")) eqn:E2.
  { apply eqb_eq in E2. rewrite E2. split; [reflexivity |].
    split; discriminate. }
  destruct (eqb (status r) (py "rejected")) eqn:E3.
  { split; [reflexivity |]. split; discriminate. }
  split; reflexivity || (split; reflexivity).
Qed.

(** ** admin.py: columns of the change list *)

(** X15: [theme_short] never shows more than 43 characters: a theme of up
    to 40 characters is shown whole, a longer one is cut after its first
    40 characters and followed by three periods. *)
Theorem theme_short_length (obj : Feedback) :
  length (theme_short obj)
  = (if (40 <? length (theme obj))%nat then 43 else length (theme obj))
  /\ (length (theme_short obj) <= 43)%nat
  /\ take 40 (theme_short obj) = take 40 (theme obj).
Proof.
  unfold theme_short, prefix. destruct (Nat.ltb_spec 40 (length (theme obj))).
  - rewrite length_app, length_take. cbn [length py map list_ascii_of_string].
    split; [lia |]. split; [lia |].
    rewrite take_app_le by (rewrite length_take; lia). by rewrite take_take.
  - split; [done |]. split; [lia | done].
Qed.

Section SubTags.

Lemma closes_false_sub (x : pystr) :
  closes x = false -> closes (sub_tags false x) = false.
Proof.
  induction x as [|c x IH]; [done |]. cbn [closes sub_tags].
  destruct (N.eqb_spec c 62); [discriminate |].
  destruct (N.eqb_spec c 10) as [-> | Hn]; [reflexivity |].
  intros H. rewrite H, andb_false_r. cbn [closes].
  destruct (N.eqb_spec c 62); [done |].
  destruct (N.eqb_spec c 10); [done |]. by apply IH.
Qed.

Lemma sub_tags_tagless (inside : bool) (x : pystr) :
  tagless (sub_tags inside x).
Proof.
  revert inside. induction x as [|c x IH]; intros inside; [exact I |].
  cbn [sub_tags]. destruct inside; [apply IH |].
  destruct ((c =? 60)%N && closes x) eqn:E; [apply IH |].
  cbn [tagless]. split; [| apply IH].
  intros ->. cbn in E. by apply closes_false_sub.
Qed.

Lemma tagless_fixed (y : pystr) : tagless y -> sub_tags false y = y.
Proof.
  induction y as [|c y IH]; [done |]. intros [Hc Ht]. cbn [sub_tags].
  destruct (N.eqb_spec c 60) as [E | Hne].
  - rewrite (Hc E). cbn [andb]. by rewrite (IH Ht).
  - cbn [andb]. by rewrite (IH Ht).
Qed.

Lemma sub_tags_length (inside : bool) (x : pystr) :
  (length (sub_tags inside x) <= length x)%nat.
Proof.
  revert inside. induction x as [|c x IH]; intros inside; [done |].
  cbn [sub_tags]. destruct inside.
  - specialize (IH (negb (c =? 62)%N)). cbn [length]. lia.
  - destruct ((c =? 60)%N && closes x).
    + specialize (IH true). cbn [length]. lia.
    + specialize (IH false). cbn [length]. lia.
Qed.

End SubTags.

(** X16: the tag removal of [message_short] leaves no tag behind: in its
    result no [<] is followed by a [>] on the same line, so removing tags
    a second time changes nothing, and the result is never longer than
    the message.  [message_short] shows at most 53 characters, the first
    50 of them those of the cleaned message. *)
Theorem message_short_tagless (obj : Feedback) :
  let clean_message := sub_tags false (message obj) in
  tagless clean_message
  /\ sub_tags false clean_message = clean_message
  /\ (length clean_message <= length (message obj))%nat
  /\ (length (message_short obj) <= 53)%nat
  /\ take 50 (message_short obj) = take 50 clean_message.
Proof.
  cbn zeta. split; [apply sub_tags_tagless |].
  split; [apply tagless_fixed, sub_tags_tagless |].
  split; [apply sub_tags_length |].
  unfold message_short, prefix.
  destruct (Nat.ltb_spec 50 (length (sub_tags false (message obj)))).
  - rewrite length_app, length_take. cbn [length py map list_ascii_of_string].
    split; [lia |].
    rewrite take_app_le by (rewrite length_take; lia). by rewrite take_take.
  - split; [lia | done].
Qed.

(** X17: [days_since_creation] by age of the record: under one day it is
    today, under two days one day; from two to six days the days are
    shown; from 7 to 29 days the weeks, which are 1 to 4; from 30 days on
    the months of 30 days, at least 1.  A record dated in the future is
    shown with a negative number of days. *)
Theorem days_since_creation_cases (now : Z) (obj : Feedback) :
  let delta := (now - created_at obj)%Z in
  match days_since_creation now obj with
  | Today => (0 <= delta < DAY)%Z
  | OneDayAgo => (DAY <= delta < 2 * DAY)%Z
  | DaysAgo days =>
      days = (delta / DAY)%Z
      /\ ((2 <= days <= 6)%Z /\ (2 * DAY <= delta < 7 * DAY)%Z
          \/ (days < 0)%Z /\ (delta < 0)%Z)
  | WeeksAgo weeks => (1 <= weeks <= 4)%Z /\ (7 * DAY <= delta < 30 * DAY)%Z
  | MonthsAgo months =>
      (1 <= months)%Z /\ months = (delta / DAY / 30)%Z
      /\ (30 * DAY <= delta)%Z
  end.
Proof.
  cbn zeta. unfold days_since_creation.
  set (delta := (now - created_at obj)%Z).
  assert (HD : (0 < DAY)%Z) by (unfold DAY, HOUR; lia).
  pose proof (Z.div_mod delta DAY ltac:(lia)) as Hdm.
  pose proof (Z.mod_pos_bound delta DAY HD) as Hmod.
  set (days := (delta / DAY)%Z) in *.
  destruct (Z.eqb_spec days 0); [nia |].
  destruct (Z.eqb_spec days 1); [nia |].
  destruct (Z.ltb_spec days 7).
  - split; [done |]. destruct (Z_lt_le_dec days 0); [right | left]; nia.
  - destruct (Z.ltb_spec days 30).
    + pose proof (Z.div_mod days 7 ltac:(lia)).
      pose proof (Z.mod_pos_bound days 7 ltac:(lia)). nia.
    + pose proof (Z.div_mod days 30 ltac:(lia)).
      pose proof (Z.mod_pos_bound days 30 ltac:(lia)).
      split; [nia |]. split; [done | nia].
Qed.

(** ** admin.py: actions *)

Section Actions.

Lemma selected_set_status (pks : list N) (v : pystr) (r : Feedback) :
  selected pks (set_status v r) = selected pks r.
Proof. reflexivity. Qed.

Lemma queryset_update_rows (pks : list N) (v : pystr) (rows : list Feedback) :
  let rows' := (queryset_update pks v rows).2 in
  map id rows' = map id rows
  /\ map updated_at rows' = map updated_at rows
  /\ map (set_status []) rows' = map (set_status []) rows
  /\ Forall (fun r => selected pks r = true -> status r = v) rows'
  /\ List.filter (fun r => negb (selected pks r)) rows'
     = List.filter (fun r => negb (selected pks r)) rows
  /\ (queryset_update pks v rows).1
     = length (List.filter (selected pks) rows').
Proof.
  cbn zeta. unfold queryset_update. cbn [fst snd].
  induction rows as [|r rows (H1 & H2 & H3 & H4 & H5 & H6)].
  - repeat split; constructor.
  - cbn [map List.filter]. destruct (selected pks r) eqn:E.
    + rewrite selected_set_status, E. cbn [negb length id updated_at].
      rewrite H1, H2, H3, H5, H6.
      repeat split; try reflexivity. by constructor.
    + rewrite E. cbn [negb]. rewrite H1, H2, H3, H5.
      repeat split; try reflexivity; [| exact H6].
      constructor; [congruence | exact H4].
Qed.

Lemma queryset_update_twice (pks : list N) (v1 v2 : pystr)
    (rows : list Feedback) :
  queryset_update pks v2 (queryset_update pks v1 rows).2
  = queryset_update pks v2 rows.
Proof.
  unfold queryset_update. cbn [snd].
  induction rows as [|r rows IH]; [done |].
  injection IH as IH1 IH2. cbn [map List.filter].
  destruct (selected pks r) eqn:E.
  - rewrite selected_set_status, E. cbn [length]. by rewrite IH1, IH2.
  - rewrite E. by rewrite IH1, IH2.
Qed.

Lemma mark_as_eq (value : pystr) (pks : list N) (st : State) :
  mark_as value pks st
  = ((queryset_update pks value (db st)).1,
     {| cache := cache st; db := (queryset_update pks value (db st)).2;
        next_pk := next_pk st |}).
Proof. reflexivity. Qed.

End Actions.

(** X18: an admin action [mark_as_...] on a selection of primary keys
    gives every selected record the status of the action and leaves
    every other record, and every other column of the selected ones
    ([updated_at] included), as it was; no record is added, removed or
    moved, and the count it reports is the number of selected records in
    the table. *)
Theorem mark_as_effect (value : pystr) (pks : list N) (st : State) :
  let count := (mark_as value pks st).1 in
  let st' := (mark_as value pks st).2 in
  map id (db st') = map id (db st)
  /\ map (set_status []) (db st') = map (set_status []) (db st)
  /\ Forall (fun r => status r = if selected pks r then value else status r)
       (db st')
  /\ List.filter (fun r => negb (selected pks r)) (db st')
     = List.filter (fun r => negb (selected pks r)) (db st)
  /\ count = length (List.filter (selected pks) (db st))
  /\ next_pk st' = next_pk st /\ cache st' = cache st.
Proof.
  cbn zeta. unfold mark_as.
  pose proof (queryset_update_rows pks value (db st)) as H. cbn zeta in H.
  destruct (queryset_update pks value (db st)) as [count rows] eqn:E.
  cbn [fst snd db next_pk cache] in *.
  destruct H as (H1 & _ & H3 & H4 & H5 & _).
  split; [exact H1 |]. split; [exact H3 |]. split.
  - eapply Forall_impl; [exact H4 |]. cbn. intros r Hr.
    destruct (selected pks r); [by apply Hr | done].
  - split; [exact H5 |]. split; [| done].
    unfold queryset_update in E. by injection E as <- _.
Qed.

(** X19: admin actions on the same selection compose as the last one:
    marking as completed and then as new leaves the table as marking as
    new alone; an action applied twice is the action applied once; and
    after [mark_as_completed] every selected record satisfies
    [is_completed]. *)
Theorem mark_as_last_wins (v1 v2 : pystr) (pks : list N) (st : State) :
  mark_as v2 pks (mark_as v1 pks st).2 = mark_as v2 pks st
  /\ Forall (fun r => is_completed r = true)
       (List.filter (selected pks) (db (mark_as_completed pks st).2)).
Proof.
  split.
  - rewrite !mark_as_eq. cbn [snd db cache next_pk].
    by rewrite queryset_update_twice.
  - unfold mark_as_completed. rewrite mark_as_eq. cbn [snd db].
    unfold queryset_update. cbn [snd].
    apply Forall_forall. intros r' Hr'.
    apply list_elem_of_In, filter_In in Hr' as [Hin Hsel].
    apply in_map_iff in Hin as (r & <- & _).
    destruct (selected pks r) eqn:E; [reflexivity | congruence].
Qed.

(** ** admin.py: export *)

Section ExportFacts.

Lemma replace_char_removes (c : N) (r x : pystr) :
  has_char c r = false -> has_char c (replace_char c r x) = false.
Proof.
  intros Hr. unfold replace_char.
  induction x as [|d x IH]; [done |]. cbn [map concat].
  unfold has_char in *. rewrite existsb_app, IH, orb_false_r.
  destruct (N.eqb_spec d c) as [-> | Hne]; [exact Hr |].
  cbn. apply N.eqb_neq in Hne. by rewrite N.eqb_sym, Hne.
Qed.

Lemma replace_char_keeps_out (c d : N) (r x : pystr) :
  has_char c r = false -> has_char c x = false ->
  has_char c (replace_char d r x) = false.
Proof.
  intros Hr. unfold replace_char.
  induction x as [|e x IH]; [done |]. cbn [has_char existsb map concat].
  intros H. apply orb_false_elim in H as [H1 H2].
  unfold has_char in *. rewrite existsb_app, (IH H2), orb_false_r.
  destruct (e =? d)%N; [exact Hr |]. cbn. by rewrite H1.
Qed.

End ExportFacts.

(** X20: the export has the header row followed by one row per record of
    the queryset, in order, and every row has ten columns; the id column
    is the primary key in decimal, the email and theme columns are the
    stored values, and the message column holds no line feed and no
    carriage return. *)
Theorem export_as_csv_rows (strftime : Z -> pystr)
    (queryset : list Feedback) :
  length (export_as_csv strftime queryset) = S (length queryset)
  /\ Forall (fun row => length row = 10%nat) (export_as_csv strftime queryset)
  /\ Forall2 (fun obj row =>
                nth 0 row [] = str_of_N (id obj)
                /\ nth 6 row [] = email obj /\ nth 7 row [] = theme obj
                /\ has_char 10 (nth 8 row []) = false
                /\ has_char 13 (nth 8 row []) = false)
       queryset (tl (export_as_csv strftime queryset)).
Proof.
  unfold export_as_csv. cbn [length tl]. rewrite length_map.
  split; [done |]. split.
  - constructor; [reflexivity |]. apply Forall_forall. intros row Hrow.
    apply list_elem_of_fmap in Hrow as (obj & -> & _). reflexivity.
  - induction queryset as [|obj rows IH]; [constructor |].
    cbn [map]. constructor; [| exact IH]. cbn [export_row nth].
    split; [done |]. split; [done |]. split; [done |]. split.
    + apply replace_char_keeps_out; [done |].
      by apply replace_char_removes.
    + by apply replace_char_removes.
Qed.

(** ** views.py: the list view *)

Section ListFacts.
Context (icontains : pystr -> pystr -> bool).





End ListFacts.


(** ** views.py: statistics *)

Section Stats.

Lemma count_by_lookup (f : Feedback -> pystr) (rows : list Feedback)
    (k : pystr) :
  count_by f rows !! k
  = match length (List.filter (fun r => eqb (f r) k) rows) with
    | O => None
    | S n => Some (S n)
    end.
Proof.
  induction rows as [|r rows IH]; [done |]. cbn [count_by foldr List.filter].
  fold (count_by f rows). destruct (decide (f r = k)) as [E | Hne].
  - rewrite E, lookup_insert_eq, IH.
    replace (eqb k k) with true by (symmetry; by apply eqb_eq).
    cbn [length]. by destruct (length _).
  - rewrite lookup_insert_ne by done.
    replace (eqb (f r) k) with false; [exact IH |].
    symmetry. by apply bool_decide_eq_false.
Qed.

Lemma count_by_default (f : Feedback -> pystr) (rows : list Feedback)
    (k : pystr) :
  default 0%nat (count_by f rows !! k)
  = length (List.filter (fun r => eqb (f r) k) rows).
Proof. rewrite count_by_lookup. by destruct (length _). Qed.

End Stats.

(** X23: in the statistics every status and every actor that occurs in
    the table is listed with the number of records that have it, a value
    that does not occur is not listed at all (no zero counts), the total
    is the number of records, and the records of the last seven days are
    never more than the total. *)
Theorem feedback_statistics_counts (now : Z) (rows : list Feedback) :
  let s := feedback_statistics now rows in
  total s = length rows
  /\ (recent s <= total s)%nat
  /\ (forall v, by_status s !! v
                = match length (List.filter (fun r => eqb (status r) v) rows) with
                  | O => None
                  | S n => Some (S n)
                  end)
  /\ (forall v, by_actor s !! v
                = match length (List.filter (fun r => eqb (actor r) v) rows) with
                  | O => None
                  | S n => Some (S n)
                  end).
Proof.
  cbn zeta. unfold feedback_statistics. cbn [total recent by_status by_actor].
  split; [done |]. split.
  - induction rows as [|r rows IH]; [done |]. cbn [List.filter].
    destruct (_ <=? _)%Z; cbn [length]; lia.
  - split; intros v; apply count_by_lookup.
Qed.

(** X24: when every record has one of the three statuses of
    [STATUS_CHOICES], the counts of new, completed and rejected in the
    statistics add up to the total. *)
Theorem feedback_statistics_sum (now : Z) (rows : list Feedback) :
  Forall (fun r => mem (status r) STATUS_CHOICES = true) rows ->
  let s := feedback_statistics now rows in
  (default 0 (by_status s !! py "new")
   + default 0 (by_status s !! py "completed")
   + default 0 (by_status s !! py "rejected")
   = total s)%nat.
Proof.
  intros Hall. cbn zeta. unfold feedback_statistics.
  cbn [total by_status]. rewrite !count_by_default.
  induction Hall as [|r rows Hr _ IH]; [done |].
  cbn [List.filter length]. rewrite <- IH.
  apply mem_In in Hr. destruct Hr as [<- | [<- | [<- | []]]];
    vm_compute eqb; cbn [length]; lia.
Qed.

Lemma feedback_statistics_sum_witness :
  let rows := db (mark_as_completed [1%N] Sample.after_john).2
              ++ db Sample.after_john in
  let s := feedback_statistics 0 rows in
  by_status s !! py "completed" = Some 1%nat
  /\ (default 0 (by_status s !! py "new")
      + default 0 (by_status s !! py "completed")
      + default 0 (by_status s !! py "rejected") = 2)%nat.
Proof.
  intros rows s. split; [vm_compute; reflexivity |].
  apply (feedback_statistics_sum 0 rows).
  repeat constructor.
Defined.

(** ** From the payload to the stored record *)

Section Stored.
Context {L : Libs}.

Lemma strip_strip (x : pystr) : strip (strip x) = strip x.
Proof. apply trimmed_strip, strip_trimmed. Qed.

Lemma CharField_value (required allow_null allow_blank : bool)
    (validators : pystr -> list msg) (d : raw) (v : option pystr) :
  CharField required allow_null allow_blank validators d = Value v ->
  match d with
  | Str x =>
      v = Some (strip x)
      /\ (truthy (strip x) = true \/ allow_blank = true)
  | Null => v = None /\ allow_null = true
  | Missing => False
  end.
Proof.
  unfold CharField. destruct d as [| |x].
  - by destruct required.
  - destruct allow_null; [| done]. by intros [= <-].
  - destruct (truthy (strip x)) eqn:Ht; cbn [negb].
    + destruct (validators (strip x)); [| done]. intros [= <-]. auto.
    + destruct allow_blank; [| done]. intros [= <-].
      apply truthy_false in Ht. rewrite Ht. auto.
Qed.

Lemma field_theme_value (d : raw) (t : pystr) :
  field_theme d = Value t ->
  exists v, d = Str v /\ t = strip (strip_tags (strip v)).
Proof.
  unfold field_theme, then_validate.
  destruct (CharField _ _ _ _ d) as [|o|] eqn:E; try discriminate.
  apply CharField_value in E. destruct d as [| |x]; [done | by destruct E |].
  destruct E as [-> _]. cbn [or_empty].
  destruct (validate_theme (strip x)) eqn:Hv; [| discriminate].
  intros [= <-]. exists x. split; [done |].
  unfold validate_theme in Hv.
  repeat match type of Hv with context [if ?b then _ else _] =>
    destruct b; try discriminate end.
  by injection Hv as <-.
Qed.

Lemma field_name_person_value (d : raw) (t : pystr) :
  field_name_person d = Value t ->
  exists v, d = Str v /\ t = strip (strip_tags (strip v)).
Proof.
  unfold field_name_person, then_validate.
  destruct (CharField _ _ _ _ d) as [|o|] eqn:E; try discriminate.
  apply CharField_value in E. destruct d as [| |x]; [done | by destruct E |].
  destruct E as [-> _]. cbn [or_empty].
  destruct (validate_name_person (strip x)) eqn:Hv; [| discriminate].
  intros [= <-]. exists x. split; [done |].
  unfold validate_name_person in Hv.
  repeat match type of Hv with context [if ?b then _ else _] =>
    destruct b; try discriminate end.
  by injection Hv as <-.
Qed.

Lemma field_message_value (d : raw) (t : pystr) :
  field_message d = Value t ->
  exists v, d = Str v /\ t = strip (bleach_clean message_tags (strip v)).
Proof.
  unfold field_message, then_validate.
  destruct (CharField _ _ _ _ d) as [|o|] eqn:E; try discriminate.
  apply CharField_value in E. destruct d as [| |x]; [done | by destruct E |].
  destruct E as [-> _]. cbn [or_empty].
  destruct (validate_message (strip x)) eqn:Hv; [| discriminate].
  intros [= <-]. exists x. split; [done |].
  unfold validate_message in Hv.
  repeat match type of Hv with context [if ?b then _ else _] =>
    destruct b; try discriminate end.
  by injection Hv as <-.
Qed.

Lemma field_email_value (d : raw) (e : pystr) :
  field_email d = Value e ->
  exists v, d = Str v /\ e = strip (str_lower (strip v))
            /\ EmailValidator (strip v) = true
            /\ ~ In (email_domain (strip v)) suspicious_domains.
Proof.
  unfold field_email, then_validate.
  destruct (CharField _ _ _ _ d) as [|o|] eqn:E; try discriminate.
  pose proof E as E'. apply CharField_value in E'.
  destruct d as [| |x]; [done | by destruct E' |].
  destruct E' as [-> _]. cbn [or_empty].
  destruct (validate_email (strip x)) eqn:Hv; [| discriminate].
  intros [= <-]. exists x. split; [done |].
  unfold validate_email in Hv.
  destruct (negb (truthy (strip x))); [discriminate |].
  destruct (mem (email_domain (strip x)) suspicious_domains) eqn:Hm;
    [discriminate |].
  injection Hv as <-. split; [done |]. split.
  - unfold CharField in E. destruct (negb (truthy (strip x))); [done |].
    unfold email_validators in E.
    destruct (EmailValidator (strip x)); [done | discriminate].
  - intros Hin. apply mem_In in Hin. congruence.
Qed.

Lemma field_actor_value (d : raw) (t : pystr) :
  field_actor d = Value t -> d = Str t /\ In t ACTOR_CHOICES.
Proof.
  unfold field_actor, then_validate, ChoiceField.
  destruct d as [| |x]; try discriminate.
  destruct (mem x ACTOR_CHOICES) eqn:E; [| discriminate].
  unfold validate_actor. rewrite E. cbn [negb]. intros [= <-].
  split; [done | by apply mem_In].
Qed.

Lemma field_name_company_value (d : raw) :
  match field_name_company d with
  | Value c =>
      c = match d with
          | Str v =>
              if truthy (strip v)
              then Some (strip (strip_tags (strip v)))
              else Some []
          | _ => None
          end
  | Skip => d = Missing
  | Fail _ => True
  end.
Proof.
  unfold field_name_company, then_validate, CharField.
  destruct d as [| |x]; [done | done |].
  destruct (truthy (strip x)) eqn:Ht; cbn [negb]; [| done].
  destruct (_ ++ _); [| done]. unfold validate_name_company. rewrite Ht.
  by destruct (_ <? _)%nat.
Qed.

Lemma to_internal_value_company (d : payload) (a : attrs) :
  to_internal_value d = inr a ->
  a_name_company a
  = match field_name_company (p_name_company d) with
    | Value c => Some c
    | _ => None
    end.
Proof.
  unfold to_internal_value.
  destruct (field_actor _); try discriminate;
  destruct (field_theme _); try discriminate;
  destruct (field_email _); try discriminate;
  destruct (field_name_company _); try discriminate;
  destruct (field_name_person _); try discriminate;
  destruct (field_message _); try discriminate;
  cbn; intros H; injection H as <-; auto.
Qed.

Lemma then_validate_fail {A B} (o : outcome A) (f : A -> result B)
    (errs : list msg) (e : msg) :
  then_validate o f = Fail errs -> In e errs ->
  (exists errs', o = Fail errs' /\ In e errs')
  \/ exists a, o = Value a /\ f a = Raise e.
Proof.
  unfold then_validate. destruct o as [|a|errs']; [done | |].
  - destruct (f a) eqn:E; [done |]. intros [= <-] [<- | []]. right. eauto.
  - intros [= ->] Hin. left. eauto.
Qed.

Lemma CharField_fail (required allow_null allow_blank : bool)
    (validators : pystr -> list msg) (d : raw) (errs : list msg) (e : msg) :
  CharField required allow_null allow_blank validators d = Fail errs ->
  In e errs ->
  e = Blank \/ e = Required \/ e = NullValue
  \/ exists v, In e (validators v).
Proof.
  unfold CharField. destruct d as [| |x].
  - destruct required; [| done]. intros [= <-] [<- | []]. auto.
  - destruct allow_null; [done |]. intros [= <-] [<- | []]. auto.
  - destruct (negb (truthy (strip x))).
    + destruct allow_blank; [done |]. intros [= <-] [<- | []]. auto.
    + destruct (validators (strip x)) as [|e' l] eqn:Ev; [done |].
      intros [= <-] Hin. right. right. right. exists (strip x).
      by rewrite Ev.
Qed.

Lemma CharField_truthy (required allow_null : bool)
    (validators : pystr -> list msg) (d : raw) (v : option pystr) :
  CharField required allow_null false validators d = Value v ->
  v = None \/ exists x, v = Some (strip x) /\ truthy (strip x) = true.
Proof.
  intros E. apply CharField_value in E. destruct d as [| |x]; [done | |].
  - left. by destruct E.
  - right. destruct E as [-> [E | E]]; [eauto | done].
Qed.

Lemma length_validators_in (e : msg) (v : pystr) (l : list msg) :
  In e l ->
  (forall n e', l = max_length n e' v -> e = e')
  /\ (forall n e', l = min_length n e' v -> e = e')
  /\ (l = prohibit_null v -> e = NullCharacters)
  /\ (l = prohibit_surrogate v -> e = SurrogateCharacters).
Proof.
  intros Hin. repeat split.
  - intros n e' ->. unfold max_length in Hin.
    destruct (_ <? _)%nat; [by destruct Hin as [<- | []] | done].
  - intros n e' ->. unfold min_length in Hin.
    destruct (_ <? _)%nat; [by destruct Hin as [<- | []] | done].
  - intros ->. unfold prohibit_null in Hin.
    destruct (has_char 0 v); [by destruct Hin as [<- | []] | done].
  - intros ->. unfold prohibit_surrogate in Hin.
    destruct (existsb _ v); [by destruct Hin as [<- | []] | done].
Qed.

End Stored.

(** X25: the emptiness tests of the field validators and the actor test
    of [validate_actor] are shadowed by the serializer fields: no error
    list of a field of the create serializer ever holds the message for
    an empty theme, name, message or email, or for a wrong actor; blank,
    missing and unknown input is answered by the field's own blank,
    required, null or invalid-choice error. *)
Theorem shadowed_messages_never_reported {L : Libs} (d : raw)
    (errs : list msg) :
  (field_theme d = Fail errs -> ~ In ThemeEmpty errs)
  /\ (field_name_person d = Fail errs -> ~ In NameRequired errs)
  /\ (field_message d = Fail errs -> ~ In MessageRequired errs)
  /\ (field_email d = Fail errs -> ~ In EmailRequired errs)
  /\ (field_actor d = Fail errs -> ~ In BadActor errs).
Proof.
  assert (Hlen : forall e v l1 l2 n1 e1 n2 e2,
             l1 = max_length n1 e1 v \/ l1 = min_length n1 e1 v ->
             l2 = max_length n2 e2 v \/ l2 = min_length n2 e2 v ->
             In e (l1 ++ l2 ++ prohibit_null v ++ prohibit_surrogate v) ->
             e = e1 \/ e = e2 \/ e = NullCharacters
             \/ e = SurrogateCharacters).
  { intros e v l1 l2 n1 e1 n2 e2 H1 H2 Hin.
    repeat (apply in_app_or in Hin as [Hin | Hin]);
      destruct (length_validators_in e v _ Hin) as (Ha & Hb & Hc & Hd).
    - destruct H1 as [H1 | H1]; [left; by eapply Ha | left; by eapply Hb].
    - destruct H2 as [H2 | H2];
        [right; left; by eapply Ha | right; left; by eapply Hb].
    - right. right. left. by apply Hc.
    - right. right. right. by apply Hd. }
  assert (Hempty : forall rq an vs (v : option pystr),
             CharField rq an false vs d = Value v ->
             truthy (or_empty v) = true
             /\ truthy (strip (or_empty v)) = true \/ v = None).
  { intros rq an vs v E. apply CharField_truthy in E as [-> | (x & -> & Ht)];
      [by right |].
    left. cbn [or_empty]. by rewrite strip_strip. }
  split; [| split; [| split; [| split]]].
  - intros H Hin.
    apply (then_validate_fail _ _ _ ThemeEmpty H) in Hin
      as [(errs' & E & Hin) | (v & Hv & Hr)].
    + destruct (CharField_fail _ _ _ _ _ _ _ E Hin)
        as [? | [? | [? | (v & Hv)]]]; try discriminate.
      eapply Hlen in Hv; [| eauto | eauto].
      destruct Hv as [? | [? | [? | ?]]]; discriminate.
    + pose proof Hv as Hd. apply CharField_value in Hd.
      destruct d as [| |x]; [done | by destruct Hd |].
      apply Hempty in Hv as [[H1 H2] | ->]; [| by destruct Hd].
      unfold validate_theme in Hr. rewrite H1, H2 in Hr. cbn in Hr.
      repeat match type of Hr with context [if ?b then _ else _] =>
        destruct b; try discriminate end.
  - intros H Hin.
    apply (then_validate_fail _ _ _ NameRequired H) in Hin
      as [(errs' & E & Hin) | (v & Hv & Hr)].
    + destruct (CharField_fail _ _ _ _ _ _ _ E Hin)
        as [? | [? | [? | (v & Hv)]]]; try discriminate.
      eapply Hlen in Hv; [| eauto | eauto].
      destruct Hv as [? | [? | [? | ?]]]; discriminate.
    + pose proof Hv as Hd. apply CharField_value in Hd.
      destruct d as [| |x]; [done | by destruct Hd |].
      apply Hempty in Hv as [[H1 H2] | ->]; [| by destruct Hd].
      unfold validate_name_person in Hr. rewrite H1, H2 in Hr. cbn in Hr.
      repeat match type of Hr with context [if ?b then _ else _] =>
        destruct b; try discriminate end.
  - intros H Hin.
    apply (then_validate_fail _ _ _ MessageRequired H) in Hin
      as [(errs' & E & Hin) | (v & Hv & Hr)].
    + destruct (CharField_fail _ _ _ _ _ _ _ E Hin)
        as [? | [? | [? | (v & Hv)]]]; try discriminate.
      eapply Hlen in Hv; [| eauto | eauto].
      destruct Hv as [? | [? | [? | ?]]]; discriminate.
    + pose proof Hv as Hd. apply CharField_value in Hd.
      destruct d as [| |x]; [done | by destruct Hd |].
      apply Hempty in Hv as [[H1 H2] | ->]; [| by destruct Hd].
      unfold validate_message in Hr. rewrite H1, H2 in Hr. cbn in Hr.
      repeat match type of Hr with context [if ?b then _ else _] =>
        destruct b; try discriminate end.
  - intros H Hin.
    apply (then_validate_fail _ _ _ EmailRequired H) in Hin
      as [(errs' & E & Hin) | (v & Hv & Hr)].
    + destruct (CharField_fail _ _ _ _ _ _ _ E Hin)
        as [? | [? | [? | (v & Hv)]]]; try discriminate.
      unfold email_validators in Hv.
      repeat (apply in_app_or in Hv as [Hv | Hv]);
        try (destruct (EmailValidator v);
             [done | destruct Hv as [? | []]; discriminate]);
        destruct (length_validators_in _ v _ Hv) as (Ha & Hb & Hc & Hd).
      * specialize (Ha _ _ eq_refl). discriminate.
      * specialize (Hc eq_refl). discriminate.
      * specialize (Hd eq_refl). discriminate.
    + pose proof Hv as Hd. apply CharField_value in Hd.
      destruct d as [| |x]; [done | by destruct Hd |].
      apply Hempty in Hv as [[H1 H2] | ->]; [| by destruct Hd].
      unfold validate_email in Hr. rewrite H1 in Hr. cbn [negb] in Hr.
      destruct (mem (email_domain (or_empty v)) suspicious_domains);
        discriminate.
  - intros H Hin.
    apply (then_validate_fail _ _ _ BadActor H) in Hin
      as [(errs' & E & Hin) | (v & Hv & Hr)].
    + unfold ChoiceField in E. destruct d as [| |x].
      * injection E as <-. by destruct Hin as [? | []].
      * injection E as <-. by destruct Hin as [? | []].
      * destruct (mem x ACTOR_CHOICES); [done |].
        injection E as <-. by destruct Hin as [? | []].
    + unfold ChoiceField in Hv. destruct d as [| |x]; try discriminate.
      destruct (mem x ACTOR_CHOICES) eqn:E; [| discriminate].
      injection Hv as <-. unfold validate_actor in Hr. rewrite E in Hr.
      discriminate.
Qed.

Lemma shadowed_messages_never_reported_witness :
  ~ In ThemeEmpty [Blank] /\ ~ In BadActor [InvalidChoice].
Proof.
  split.
  - apply (proj1 (@shadowed_messages_never_reported Ref.libs
                    (Str (py "   ")) [Blank])).
    vm_compute. reflexivity.
  - apply (proj2 (proj2 (proj2 (proj2
             (@shadowed_messages_never_reported Ref.libs
                (Str (py "visitor")) [InvalidChoice]))))).
    vm_compute. reflexivity.
Defined.

Section StoredRecord.
Context {L : Libs} (cfg : Settings).

Lemma to_internal_value_company_ok (d : payload) (a : attrs) :
  to_internal_value d = inr a ->
  failed (field_name_company (p_name_company d)) = false.
Proof.
  unfold to_internal_value.
  destruct (field_actor _); try discriminate;
  destruct (field_theme _); try discriminate;
  destruct (field_email _); try discriminate;
  destruct (field_name_company _); try discriminate;
  destruct (field_name_person _); try discriminate;
  destruct (field_message _); try discriminate;
  cbn; intros H; done.
Qed.

Lemma dispatch_201 (m : meta) (d : payload) (now : Z) (st : State) :
  status_code (dispatch cfg m d now st).1 = 201%nat ->
  exists a,
    to_internal_value d = inr a
    /\ db (dispatch cfg m d now st).2
       = db st ++ [save_new (next_pk st) now
                     (new_feedback a (get_client_ip m)
                        (default [] (HTTP_USER_AGENT m)))].
Proof.
  unfold dispatch.
  destruct (check_throttles cfg m now (cache st)) as [[] c']; [| discriminate].
  unfold create. destruct (mem _ _); [discriminate |].
  unfold run_validation.
  destruct (to_internal_value d) as [errors|a] eqn:E; [discriminate |].
  unfold validate. destruct (recent_feedback _ _ _ _); [discriminate |].
  intros _. exists a. split; reflexivity.
Qed.

End StoredRecord.

(** X26: what an accepted submission stores, from the payload: the actor
    as sent, one of the three choices; the email trimmed, lowercased and
    trimmed again, an address the syntax check accepts; the theme and the
    person name trimmed, stripped of tags, trimmed, and then cleaned by
    bleach with its default tags; the message trimmed, cleaned with the
    message tags, trimmed, and cleaned a second time; the company
    likewise when given and not blank, the empty string when blank, and
    nothing when absent or null. *)
Theorem stored_record_from_payload {L : Libs} (cfg : Settings) (m : meta)
    (d : payload) (now : Z) (st : State) :
  status_code (dispatch cfg m d now st).1 = 201%nat ->
  exists va vt ve vp vm r,
    p_actor d = Str va /\ p_theme d = Str vt /\ p_email d = Str ve
    /\ p_name_person d = Str vp /\ p_message d = Str vm
    /\ db (dispatch cfg m d now st).2 = db st ++ [r]
    /\ actor r = va /\ In va ACTOR_CHOICES
    /\ email r = strip (str_lower (strip ve))
    /\ EmailValidator (strip ve) = true
    /\ theme r
       = if_set (bleach_clean ALLOWED_TAGS) (strip (strip_tags (strip vt)))
    /\ name_person r
       = if_set (bleach_clean ALLOWED_TAGS) (strip (strip_tags (strip vp)))
    /\ message r
       = if_set (bleach_clean message_tags)
           (strip (bleach_clean message_tags (strip vm)))
    /\ name_company r
       = match p_name_company d with
         | Str v =>
             Some (if truthy (strip v)
                   then if_set (bleach_clean ALLOWED_TAGS)
                          (strip (strip_tags (strip v)))
                   else [])
         | _ => None
         end.
Proof.
  intros H201. destruct (dispatch_201 cfg m d now st H201) as (a & Hv & Hdb).
  destruct (to_internal_value_inr d a Hv) as (Ha & Ht & He & Hp & Hm).
  apply field_actor_value in Ha as [Ha Hin].
  apply field_theme_value in Ht as (vt & Ht & Et).
  apply field_email_value in He as (ve & He & Ee & Hvalid & _).
  apply field_name_person_value in Hp as (vp & Hp & Ep).
  apply field_message_value in Hm as (vm & Hm & Em).
  exists (a_actor a), vt, ve, vp, vm. eexists.
  split; [exact Ha |]. split; [exact Ht |]. split; [exact He |].
  split; [exact Hp |]. split; [exact Hm |]. split; [exact Hdb |].
  cbn [save_new save_fields new_feedback actor email theme name_person
       message name_company].
  split; [done |]. split; [exact Hin |]. split; [exact Ee |].
  split; [exact Hvalid |]. rewrite Et, Ep, Em.
  split; [done |]. split; [done |]. split; [done |].
  rewrite (to_internal_value_company d a Hv).
  pose proof (to_internal_value_company_ok d a Hv) as Hok.
  pose proof (field_name_company_value (p_name_company d)) as Hc.
  destruct (field_name_company (p_name_company d)) as [|c|errs];
    [by rewrite Hc | | discriminate].
  rewrite Hc. cbn [mjoin option_join option_fmap option_map fmap].
  destruct (p_name_company d) as [| |v]; [done | done |].
  by destruct (truthy (strip v)).
Qed.

Lemma stored_record_from_payload_witness :
  exists r,
    db Sample.after_john = [r]
    /\ email r = py "john@example.com"
    /\ name_company r = None.
Proof.
  destruct (@stored_record_from_payload Ref.libs Sample.cfg
              (Sample.anonymous None (py "1.2.3.4")) Sample.john 0
              Sample.empty ltac:(vm_compute; reflexivity))
    as (va & vt & ve & vp & vm & r & _ & _ & He & _ & _ & Hdb & _ & _
        & Hemail & _ & _ & _ & _ & Hc).
  exists r. split; [exact Hdb |].
  injection He as <-. split; [rewrite Hemail; vm_compute; reflexivity |].
  exact Hc.
Defined.

(** ** Validation errors are aggregated *)

Section Report.
Context {L : Libs}.









Lemma broken_rule_broken (k : key) (d : payload) :
  broken k d = true -> rule_broken d = true.
Proof.
  unfold rule_broken. destruct k; cbn [broken]; try discriminate;
    intros ->; by rewrite ?orb_true_r.
Qed.

Lemma rule_broken_broken (d : payload) :
  rule_broken d = true -> exists k, In k meta_fields /\ broken k d = true.
Proof.
  unfold rule_broken. intros H.
  repeat (apply orb_prop in H as [H | H]).
  - exists k_theme. split; [cbn; tauto | exact H].
  - exists k_name_person. split; [cbn; tauto | exact H].
  - exists k_name_company. split; [cbn; tauto | exact H].
  - exists k_message. split; [cbn; tauto | exact H].
Qed.

End Report.

(** A theme of 70 opening tags before eleven letters: 221 characters as
    sent, "Hello world" once the tags are removed. *)
Example long_markup_theme :
  let theme' := concat (repeat (py "<b>") 70) ++ py "Hello world" in
  let d := {| p_actor := Str (py "author"); p_theme := Str theme';
              p_email := Str (py "john@example.com");
              p_name_company := Missing;
              p_name_person := Str (py "John Smith");
              p_message := Str (py "short") |} in
  length theme' = 221%nat
  /\ strip (@strip_tags Ref.libs (strip theme')) = py "Hello world"
  /\ @theme_rule_broken Ref.libs (p_theme d) = false
  /\ @message_rule_broken Ref.libs (p_message d) = true
  /\ @to_internal_value Ref.libs d
     = inl [(k_theme, [MaxLength 200]); (k_message, [MessageTooShort])].
Proof. repeat split; vm_compute; reflexivity. Qed.



